(** * Kira payment links: the checkout flow and its validators

    A shallow embedding of [src/services/validation.service.ts] and
    [src/components/checkout/checkout.component.ts].

    - JavaScript strings are sequences of UTF-16 code units ([list N]).
    - [null] is [None]; a [ValidationErrors] object is the key it carries.
    - JavaScript numbers are IEEE 754 binary64 values ([spec_float]).
    - Signals and form controls are fields of one state record; the
      asynchronous parts of [loadLink] and [onSubmit] are continuations
      that run when the tokenizer or the gateway answers. *)

From Stdlib Require Import List Bool Arith ZArith NArith Lia.
From Stdlib Require Import Ascii String.
From Stdlib Require Import Floats.SpecFloat.
Import ListNotations.

(* ------------------------------------------------------------------ *)
(** ** JavaScript strings *)
(* ------------------------------------------------------------------ *)

Module JsString.

Definition code_unit := N.
Definition jsstring := list code_unit.

(** A literal whose characters are all below U+0100. *)
Definition lit (s : string) : jsstring :=
  List.map N_of_ascii (list_ascii_of_string s).

(** The class [\d]: U+0030 .. U+0039. *)
Definition is_digit (c : code_unit) : bool :=
  ((48 <=? c) && (c <=? 57))%N.

(** The class [\s] (and what [trim] removes): WhiteSpace and
    LineTerminator of ECMAScript. *)
Definition is_space (c : code_unit) : bool :=
  (((9 <=? c) && (c <=? 13)) || (c =? 32) || (c =? 160) || (c =? 5760)
   || ((8192 <=? c) && (c <=? 8202)) || (c =? 8232) || (c =? 8233)
   || (c =? 8239) || (c =? 8287) || (c =? 12288) || (c =? 65279))%N.

(** [s.replace(/\s+/g, '')] *)
Definition remove_spaces (s : jsstring) : jsstring :=
  filter (fun c => negb (is_space c)) s.

(** [s.replace(/\D/g, '')] *)
Definition remove_non_digits (s : jsstring) : jsstring :=
  filter is_digit s.

(** [/^\d+$/.test(s)] *)
Definition all_digits (s : jsstring) : bool :=
  match s with
  | [] => false
  | _ => forallb is_digit s
  end.

Fixpoint drop_spaces (s : jsstring) : jsstring :=
  match s with
  | c :: s' => if is_space c then drop_spaces s' else s
  | [] => []
  end.

(** [s.trim()] *)
Definition trim (s : jsstring) : jsstring :=
  rev (drop_spaces (rev (drop_spaces s))).

(** [s.substring(0, n)] *)
Definition substring0 (n : nat) (s : jsstring) : jsstring := firstn n s.

(** A JavaScript string is falsy exactly when it is empty. *)
Definition truthy (s : jsstring) : bool :=
  match s with [] => false | _ => true end.

Definition eqb (s t : jsstring) : bool :=
  if list_eq_dec N.eq_dec s t then true else false.

End JsString.
Import JsString.

(* ------------------------------------------------------------------ *)
(** ** validation.service.ts *)
(* ------------------------------------------------------------------ *)

(** The keys a [ValidationErrors] object may carry in this program. *)
Inductive ValidationError : Type :=
| E_luhn | E_required | E_minlength | E_maxlength | E_pattern.

(** The value of a form control: a string or [null]. *)
Definition ControlValue := option jsstring.

Module ValidationService.

(** [parseInt(c, 10)] on one character; [None] is [NaN]. *)
Definition parseInt (c : code_unit) : option Z :=
  if is_digit c then Some (Z.of_N c - 48)%Z else None.

(** The body of the [for] loop, run from the last character to the
    first: the argument is the part of the value still to visit,
    rightmost character first. [None] is a [NaN] sum. *)
Fixpoint luhn_loop (rest : jsstring) (sum : option Z) (shouldDouble : bool)
  : option Z :=
  match rest with
  | [] => sum
  | c :: rest' =>
      let digit := parseInt c in
      let digit :=
        if shouldDouble then
          match digit with
          | Some d => let d := (d * 2)%Z in
                      Some (if (d >? 9)%Z then (d - 9)%Z else d)
          | None => None
          end
        else digit in
      let sum := match sum, digit with
                 | Some s, Some d => Some (s + d)%Z
                 | _, _ => None
                 end in
      luhn_loop rest' sum (negb shouldDouble)
  end.

Definition luhnValidator (control_value : ControlValue)
  : option ValidationError :=
  match control_value with
  | None => None
  | Some [] => None
  | Some raw =>
      let value := remove_spaces raw in
      if negb (all_digits value) then Some E_luhn
      else
        match luhn_loop (rev value) (Some 0%Z) false with
        | Some sum => if (sum mod 10 =? 0)%Z then None else Some E_luhn
        | None => Some E_luhn
        end
  end.

(** *** The checksum in the words of the specification

    Digits are numbered from the right starting at 0; the digit at an
    odd position is doubled, and 9 is subtracted from a doubled digit
    that exceeds 9; the checksum is the sum of the resulting terms. *)
Definition digit_value (c : code_unit) : Z := (Z.of_N c - 48)%Z.

Definition checksum_term (position : nat) (c : code_unit) : Z :=
  let d := digit_value c in
  if Nat.odd position
  then (if (2 * d >? 9)%Z then 2 * d - 9 else 2 * d)%Z
  else d.

Fixpoint checksum_from (position : nat) (from_right : jsstring) : Z :=
  match from_right with
  | [] => 0%Z
  | c :: rest => (checksum_term position c
                  + checksum_from (S position) rest)%Z
  end.

Definition luhn_checksum (digits : jsstring) : Z :=
  checksum_from 0 (rev digits).

End ValidationService.
Import ValidationService.

(* ------------------------------------------------------------------ *)
(** ** The validators of @angular/forms that the component uses

    Each takes the control's value and returns an error key or [null].
    They are the library's, written here as the library documents them:
    [required] fails on [null] and on the empty string; [minLength] and
    [maxLength] compare [value.length], skipping empty values;
    [pattern] skips empty values and otherwise tests the expression. *)
(* ------------------------------------------------------------------ *)

Module Validators.

Definition ValidatorFn := ControlValue -> option ValidationError.

Definition isEmptyInputValue (v : ControlValue) : bool :=
  match v with
  | None => true
  | Some s => negb (truthy s)
  end.

Definition required : ValidatorFn := fun v =>
  if isEmptyInputValue v then Some E_required else None.

Definition minLength (n : nat) : ValidatorFn := fun v =>
  match v with
  | Some s => if isEmptyInputValue v then None
              else if List.length s <? n then Some E_minlength else None
  | None => None
  end.

Definition maxLength (n : nat) : ValidatorFn := fun v =>
  match v with
  | Some s => if n <? List.length s then Some E_maxlength else None
  | None => None
  end.

Definition pattern (test : jsstring -> bool) : ValidatorFn := fun v =>
  match v with
  | Some s => if isEmptyInputValue v then None
              else if test s then None else Some E_pattern
  | None => None
  end.

(** The errors of a control: what its validators report, in order. *)
Definition errors (validators : list ValidatorFn) (v : ControlValue)
  : list ValidationError :=
  flat_map (fun f => match f v with Some e => [e] | None => [] end)
           validators.

(** An enabled control is [invalid] when some validator reports. *)
Definition fails (validators : list ValidatorFn) (v : ControlValue) : bool :=
  match errors validators v with [] => false | _ => true end.

End Validators.

(* ------------------------------------------------------------------ *)
(** ** JavaScript numbers and [Math.round] *)
(* ------------------------------------------------------------------ *)

Module Number.

Definition prec : Z := 53.
Definition emax : Z := 1024.

Definition number := spec_float.

Definition add : number -> number -> number := SFadd prec emax.
Definition mul : number -> number -> number := SFmul prec emax.
Definition div : number -> number -> number := SFdiv prec emax.

(** An integer literal. *)
Definition of_Z (n : Z) : number := binary_normalize prec emax n 0 false.

(** A decimal literal [n / 10^d]: the nearest binary64 value. *)
Definition decimal (n : Z) (d : nat) : number :=
  div (of_Z n) (of_Z (10 ^ Z.of_nat d)).

Definition zero : number := S754_zero false.

(** [Math.round]: a value that is not finite or is integral is returned
    as it is; otherwise the nearest integer, the one toward +infinity on
    a tie, and a zero of the argument's sign when that integer is 0.
    For [x = (-1)^s * m * 2^e] with [e < 0] the nearest integer is
    [floor (x + 1/2) = floor ((+-2m + 2^-e) / 2^(1-e))]. *)
Definition Math_round (x : number) : number :=
  match x with
  | S754_finite s m e =>
      if (0 <=? e)%Z then x
      else
        let k := (- e)%Z in
        let signed := if s then Z.neg m else Z.pos m in
        let n := ((2 * signed + 2 ^ k) / 2 ^ (k + 1))%Z in
        if (n =? 0)%Z then S754_zero s else of_Z n
  | _ => x
  end.

(** *** Rounding in the words of the specification

    Half away from zero: the magnitude is rounded to the nearest
    integer, upward on a tie, and the sign is put back. *)
Definition round_half_away_from_zero (x : number) : number :=
  match x with
  | S754_finite s m e =>
      if (0 <=? e)%Z then x
      else
        let k := (- e)%Z in
        let n := ((2 * Z.pos m + 2 ^ k) / 2 ^ (k + 1))%Z in
        if (n =? 0)%Z then S754_zero s
        else of_Z (if s then - n else n)
  | _ => x
  end.

(** A negative value exactly halfway between two integers. *)
Definition negative_tie (x : number) : bool :=
  match x with
  | S754_finite true m e =>
      (e <? 0)%Z && ((2 * Z.pos m + 2 ^ (- e)) mod 2 ^ (- e + 1) =? 0)%Z
  | _ => false
  end.

End Number.
Import Number.

(* ------------------------------------------------------------------ *)
(** ** models/payment.model.ts *)
(* ------------------------------------------------------------------ *)

Inductive CheckoutStatus : Type :=
| INITIALIZING | AWAITING_INPUT | LOADING_LINK | LINK_NOT_FOUND
| READY_TO_PAY | PROCESSING_PAYMENT | COMPLETED | FAILED | ERROR_RETRYABLE.

Inductive PspProvider : Type := STRIPE | ADYEN.

Inductive LinkStatus : Type :=
| Link_DRAFT | Link_ACTIVE | Link_EXPIRED | Link_COMPLETED | Link_CANCELLED.

Inductive PaymentStatus : Type := Payment_COMPLETED | Payment_FAILED.

Record FeeBreakdown : Type := {
  fixedFeeUsd : number;
  variableFeeUsd : number;
  fxMarkupUsd : number;
  firstTxDiscountUsd : number
}.

Record FeePreview : Type := {
  fxRate : number;
  totalFeesUsd : number;
  recipientAmountMxn : number;
  breakdown : FeeBreakdown
}.

Record PaymentLinkWithPreviewResponse : Type := {
  id : jsstring;
  merchantId : jsstring;
  link_status : LinkStatus;
  amountUsd : number;
  description : jsstring;
  expiresAt : option jsstring;
  createdAt : jsstring;
  updatedAt : jsstring;
  checkoutUrl : jsstring;
  feePreview : FeePreview
}.

Record ProcessPaymentRequest : Type := {
  cardToken : jsstring;
  pspProvider : PspProvider;
  idempotencyKey : jsstring;
  metadata_cardHolder : ControlValue
}.

Record ProcessPaymentResponse : Type := {
  transactionId : jsstring;
  payment_status : PaymentStatus;
  paymentLinkId : jsstring;
  payment_pspProvider : PspProvider;
  payment_amountUsd : number;
  payment_recipientAmountMxn : number;
  fxRateApplied : number;
  payment_totalFeesUsd : number
}.

(* ------------------------------------------------------------------ *)
(** ** The body of an [HttpErrorResponse]: any JavaScript value *)
(* ------------------------------------------------------------------ *)

#[warnings="-register-all"]
Inductive JsValue : Type :=
| JsUndefined
| JsNull
| JsBoolean (b : bool)
| JsNumber (n : number)
| JsText (s : jsstring)
| JsObject (properties : list (jsstring * JsValue)).

Module Js.

Definition is_NaN (n : number) : bool :=
  match n with S754_nan => true | _ => false end.

Definition is_zero (n : number) : bool :=
  match n with S754_zero _ => true | _ => false end.

(** ToBoolean *)
Definition truthy (v : JsValue) : bool :=
  match v with
  | JsUndefined | JsNull => false
  | JsBoolean b => b
  | JsNumber n => negb (is_zero n || is_NaN n)
  | JsText s => JsString.truthy s
  | JsObject _ => true
  end.

Fixpoint lookup (key : jsstring) (properties : list (jsstring * JsValue))
  : option JsValue :=
  match properties with
  | [] => None
  | (k, v) :: rest => if JsString.eqb k key then Some v else lookup key rest
  end.

(** [v.message] for a [v] that is neither [null] nor [undefined]: an
    object yields its property, a primitive has none. *)
Definition get_message (v : JsValue) : JsValue :=
  match v with
  | JsObject properties =>
      match lookup (lit "message") properties with
      | Some m => m
      | None => JsUndefined
      end
  | _ => JsUndefined
  end.

End Js.

Record HttpErrorResponse : Type := { error : JsValue }.

(* ------------------------------------------------------------------ *)
(** ** checkout.component.ts: state *)
(* ------------------------------------------------------------------ *)

Record FormControl : Type := {
  value : ControlValue;
  touched : bool
}.

(** [paymentForm]: four controls; the group is disabled and enabled as a
    whole, which disables and enables every control in it. *)
Record PaymentForm : Type := {
  cardNumber : FormControl;
  expiryDate : FormControl;
  cvc : FormControl;
  cardHolder : FormControl;
  disabled : bool
}.

(** What the component asks of its collaborators. *)
Inductive Call : Type :=
| getPaymentLink (link_id : jsstring)
| createToken (psp : PspProvider)
| processPayment (link_id : jsstring) (request : ProcessPaymentRequest)
| navigate (link_id : jsstring).

(** The signals, the two forms, and the calls made so far (oldest
    first). *)
Record CheckoutComponent : Type := {
  status : CheckoutStatus;
  paymentLink : option PaymentLinkWithPreviewResponse;
  paymentResult : option ProcessPaymentResponse;
  errorMessage : option jsstring;
  paymentForm : PaymentForm;
  searchControl : FormControl;
  calls : list Call
}.

Module Signal.

Definition set_status (x : CheckoutStatus) (c : CheckoutComponent) :=
  {| status := x; paymentLink := paymentLink c;
     paymentResult := paymentResult c; errorMessage := errorMessage c;
     paymentForm := paymentForm c; searchControl := searchControl c;
     calls := calls c |}.

Definition set_paymentLink (x : option PaymentLinkWithPreviewResponse)
           (c : CheckoutComponent) :=
  {| status := status c; paymentLink := x;
     paymentResult := paymentResult c; errorMessage := errorMessage c;
     paymentForm := paymentForm c; searchControl := searchControl c;
     calls := calls c |}.

Definition set_paymentResult (x : option ProcessPaymentResponse)
           (c : CheckoutComponent) :=
  {| status := status c; paymentLink := paymentLink c;
     paymentResult := x; errorMessage := errorMessage c;
     paymentForm := paymentForm c; searchControl := searchControl c;
     calls := calls c |}.

Definition set_errorMessage (x : option jsstring) (c : CheckoutComponent) :=
  {| status := status c; paymentLink := paymentLink c;
     paymentResult := paymentResult c; errorMessage := x;
     paymentForm := paymentForm c; searchControl := searchControl c;
     calls := calls c |}.

Definition set_paymentForm (x : PaymentForm) (c : CheckoutComponent) :=
  {| status := status c; paymentLink := paymentLink c;
     paymentResult := paymentResult c; errorMessage := errorMessage c;
     paymentForm := x; searchControl := searchControl c;
     calls := calls c |}.

Definition set_searchControl (x : FormControl) (c : CheckoutComponent) :=
  {| status := status c; paymentLink := paymentLink c;
     paymentResult := paymentResult c; errorMessage := errorMessage c;
     paymentForm := paymentForm c; searchControl := x;
     calls := calls c |}.

Definition call (x : Call) (c : CheckoutComponent) :=
  {| status := status c; paymentLink := paymentLink c;
     paymentResult := paymentResult c; errorMessage := errorMessage c;
     paymentForm := paymentForm c; searchControl := searchControl c;
     calls := calls c ++ [x] |}.

End Signal.

Module Form.

Definition setValue (v : ControlValue) (ctl : FormControl) : FormControl :=
  {| value := v; touched := touched ctl |}.

Definition markAsTouched (ctl : FormControl) : FormControl :=
  {| value := value ctl; touched := true |}.

Definition markAllAsTouched (f : PaymentForm) : PaymentForm :=
  {| cardNumber := markAsTouched (cardNumber f);
     expiryDate := markAsTouched (expiryDate f);
     cvc := markAsTouched (cvc f);
     cardHolder := markAsTouched (cardHolder f);
     disabled := disabled f |}.

Definition set_disabled (b : bool) (f : PaymentForm) : PaymentForm :=
  {| cardNumber := cardNumber f; expiryDate := expiryDate f;
     cvc := cvc f; cardHolder := cardHolder f; disabled := b |}.

Definition disable := set_disabled true.
Definition enable := set_disabled false.

Definition set_cardNumber (ctl : FormControl) (f : PaymentForm) :=
  {| cardNumber := ctl; expiryDate := expiryDate f;
     cvc := cvc f; cardHolder := cardHolder f; disabled := disabled f |}.

Definition set_expiryDate (ctl : FormControl) (f : PaymentForm) :=
  {| cardNumber := cardNumber f; expiryDate := ctl;
     cvc := cvc f; cardHolder := cardHolder f; disabled := disabled f |}.

Definition set_cvc (ctl : FormControl) (f : PaymentForm) :=
  {| cardNumber := cardNumber f; expiryDate := expiryDate f;
     cvc := ctl; cardHolder := cardHolder f; disabled := disabled f |}.

Definition set_cardHolder (ctl : FormControl) (f : PaymentForm) :=
  {| cardNumber := cardNumber f; expiryDate := expiryDate f;
     cvc := cvc f; cardHolder := ctl; disabled := disabled f |}.

End Form.

(* ------------------------------------------------------------------ *)
(** ** checkout.component.ts: the forms and their validators *)
(* ------------------------------------------------------------------ *)

Module Checkout.

Import Signal.

Definition slash : code_unit := 47%N.
Definition space : code_unit := 32%N.

(** [0[1-9]|1[0-2]] *)
Definition month_pattern (a b : code_unit) : bool :=
  ((a =? 48) && (49 <=? b) && (b <=? 57)
   || (a =? 49) && (48 <=? b) && (b <=? 50))%N.

(** [[2-9][0-9]] *)
Definition year_pattern (c d : code_unit) : bool :=
  ((50 <=? c) && (c <=? 57))%N && is_digit d.

(** [/^(0[1-9]|1[0-2])\s?\/\s?([2-9][0-9])$/.test(s)] *)
Definition expiry_pattern (s : jsstring) : bool :=
  match s with
  | [a; b; x; c; d] =>
      month_pattern a b && (x =? slash)%N && year_pattern c d
  | [a; b; x; y; c; d] =>
      month_pattern a b
      && ((is_space x && (y =? slash)%N) || ((x =? slash)%N && is_space y))
      && year_pattern c d
  | [a; b; x; y; z; c; d] =>
      month_pattern a b
      && is_space x && (y =? slash)%N && is_space z
      && year_pattern c d
  | _ => false
  end.

Definition cardNumber_validators : list Validators.ValidatorFn :=
  [Validators.required; Validators.minLength 16; Validators.maxLength 19;
   luhnValidator].

Definition expiryDate_validators : list Validators.ValidatorFn :=
  [Validators.required; Validators.pattern expiry_pattern].

Definition cvc_validators : list Validators.ValidatorFn :=
  [Validators.required; Validators.minLength 3; Validators.maxLength 4;
   Validators.pattern all_digits].

Definition cardHolder_validators : list Validators.ValidatorFn :=
  [Validators.required; Validators.minLength 3].

Definition searchControl_validators : list Validators.ValidatorFn :=
  [Validators.required; Validators.minLength 5].

(** [paymentForm.invalid]: the group's status is INVALID. A disabled
    group has status DISABLED, so it is not invalid. *)
Definition paymentForm_invalid (f : PaymentForm) : bool :=
  if disabled f then false
  else Validators.fails cardNumber_validators (value (cardNumber f))
       || Validators.fails expiryDate_validators (value (expiryDate f))
       || Validators.fails cvc_validators (value (cvc f))
       || Validators.fails cardHolder_validators (value (cardHolder f)).

(** [searchControl.invalid] *)
Definition searchControl_invalid (ctl : FormControl) : bool :=
  Validators.fails searchControl_validators (value ctl).

(** The initial value of [cardHolder], as the source file has it. *)
Definition initial_cardHolder : jsstring :=
  [74; 117; 97; 110; 32; 80; 195; 169; 114; 101; 122]%N.

Definition initial_control (s : jsstring) : FormControl :=
  {| value := Some s; touched := false |}.

Definition initial : CheckoutComponent :=
  {| status := INITIALIZING;
     paymentLink := None;
     paymentResult := None;
     errorMessage := None;
     paymentForm :=
       {| cardNumber := initial_control [];
          expiryDate := initial_control [];
          cvc := initial_control [];
          cardHolder := initial_control initial_cardHolder;
          disabled := false |};
     searchControl := initial_control [];
     calls := [] |}.

(* ---------------------------------------------------------------- *)
(** *** [totalAmount] *)

Definition hundred : number := of_Z 100.

Definition totalAmount (c : CheckoutComponent) : number :=
  match paymentLink c with
  | None => zero
  | Some link =>
      let total := add (amountUsd link) (totalFeesUsd (feePreview link)) in
      div (Math_round (mul total hundred)) hundred
  end.

(* ---------------------------------------------------------------- *)
(** *** [loadLink]

    The call sets LOADING_LINK and asks the gateway; the rest runs
    when the gateway answers. *)

Inductive LinkAnswer : Type :=
| LinkNext (data : PaymentLinkWithPreviewResponse)
| LinkError.

Definition loadLink_call (link_id : jsstring) (c : CheckoutComponent)
  : CheckoutComponent :=
  call (getPaymentLink link_id) (set_status LOADING_LINK c).

(** [catchError] sets LINK_NOT_FOUND and fills the search field, then
    hands [null] to the subscriber, which does nothing with it; a link
    is stored and the status set to READY_TO_PAY. *)
Definition loadLink_answer (link_id : jsstring) (answer : LinkAnswer)
           (c : CheckoutComponent) : CheckoutComponent :=
  match answer with
  | LinkError =>
      set_searchControl (Form.setValue (Some link_id) (searchControl c))
        (set_status LINK_NOT_FOUND c)
  | LinkNext data =>
      set_status READY_TO_PAY (set_paymentLink (Some data) c)
  end.

Definition loadLink (link_id : jsstring) (answer : LinkAnswer)
           (c : CheckoutComponent) : CheckoutComponent :=
  loadLink_answer link_id answer (loadLink_call link_id c).

(* ---------------------------------------------------------------- *)
(** *** [ngOnInit]: the subscriber of [route.params] *)

Definition route_params (param_id : option jsstring) (c : CheckoutComponent)
  : CheckoutComponent * option jsstring :=
  match param_id with
  | Some link_id =>
      if JsString.truthy link_id
      then (loadLink_call link_id c, Some link_id)
      else (set_status AWAITING_INPUT c, None)
  | None => (set_status AWAITING_INPUT c, None)
  end.

(* ---------------------------------------------------------------- *)
(** *** [search] *)

Definition search (c : CheckoutComponent) : CheckoutComponent :=
  if searchControl_invalid (searchControl c)
  then set_searchControl (Form.markAsTouched (searchControl c)) c
  else
    match value (searchControl c) with
    | Some v =>
        let linkId := trim v in
        if JsString.truthy linkId then call (navigate linkId) c else c
    | None => c
    end.

(* ---------------------------------------------------------------- *)
(** *** [onSubmit]

    Three stretches of code run at three moments: the call itself up
    to [await]; what follows once the tokenizer has answered; and the
    operators and the subscriber once the gateway has answered. *)

Inductive TokenAnswer : Type :=
| TokenResolved (token : jsstring)
| TokenRejected.

(** [crypto.randomUUID()] returns a key or throws. *)
Inductive UuidAnswer : Type :=
| UuidReturned (key : jsstring)
| UuidThrown.

Inductive PaymentAnswer : Type :=
| PaymentNext (response : ProcessPaymentResponse)
| PaymentError (err : HttpErrorResponse).

Definition generic_payment_message : jsstring :=
  lit "We couldn't process your payment at this time. Please try again.".

Definition generic_prepare_message : jsstring :=
  lit "An unexpected error occurred while preparing the payment. Please try again.".

Definition set_form_disabled (b : bool) (c : CheckoutComponent) :=
  set_paymentForm (Form.set_disabled b (paymentForm c)) c.

(** Up to the [await]; the flag is [false] when the form is invalid
    and the call returns at once. *)
Definition onSubmit_call (c : CheckoutComponent)
  : CheckoutComponent * bool :=
  if paymentForm_invalid (paymentForm c)
  then (set_paymentForm (Form.markAllAsTouched (paymentForm c)) c, false)
  else
    (call (createToken STRIPE)
       (set_errorMessage None
          (set_form_disabled true
             (set_status PROCESSING_PAYMENT c))),
     true).

(** The [catch] block. *)
Definition onSubmit_catch (c : CheckoutComponent) : CheckoutComponent :=
  set_form_disabled false
    (set_status ERROR_RETRYABLE
       (set_errorMessage (Some generic_prepare_message) c)).

(** After the [await]: the flag says whether the gateway was called. *)
Definition onSubmit_tokenized (token : TokenAnswer) (uuid : UuidAnswer)
           (c : CheckoutComponent) : CheckoutComponent * bool :=
  match token with
  | TokenRejected => (onSubmit_catch c, false)
  | TokenResolved cardToken =>
      match uuid with
      | UuidThrown => (onSubmit_catch c, false)
      | UuidReturned key =>
          match option_map id (paymentLink c) with
          | Some link_id =>
              if JsString.truthy link_id then
                let request :=
                  {| cardToken := cardToken;
                     idempotencyKey := key;
                     pspProvider := STRIPE;
                     metadata_cardHolder :=
                       value (cardHolder (paymentForm c)) |} in
                (call (processPayment link_id request) c, true)
              else (onSubmit_catch c, false)
          | None => (onSubmit_catch c, false)
          end
      end
  end.

(** The message [catchError] shows for a failed request. *)
Definition payment_error_message (err : HttpErrorResponse) : jsstring :=
  let apiError := error err in
  if Js.truthy apiError then
    match Js.get_message apiError with
    | JsText message => message
    | _ => generic_payment_message
    end
  else generic_payment_message.

(** [catchError], the subscriber, then [finalize]. *)
Definition onSubmit_answer (answer : PaymentAnswer) (c : CheckoutComponent)
  : CheckoutComponent :=
  let c :=
    match answer with
    | PaymentError err =>
        set_status ERROR_RETRYABLE
          (set_errorMessage (Some (payment_error_message err)) c)
    | PaymentNext response =>
        let c := set_paymentResult (Some response) c in
        match payment_status response with
        | Payment_COMPLETED => set_status COMPLETED c
        | Payment_FAILED => set_status FAILED c
        end
    end in
  set_form_disabled false c.

(** One invocation run to its end, given what the collaborators
    answer. *)
Record SubmitAnswers : Type := {
  token_answer : TokenAnswer;
  uuid_answer : UuidAnswer;
  payment_answer : PaymentAnswer
}.

Definition onSubmit (env : SubmitAnswers) (c : CheckoutComponent)
  : CheckoutComponent :=
  match onSubmit_call c with
  | (c, false) => c
  | (c, true) =>
      match onSubmit_tokenized (token_answer env) (uuid_answer env) c with
      | (c, false) => c
      | (c, true) => onSubmit_answer (payment_answer env) c
      end
  end.

(* ---------------------------------------------------------------- *)
(** *** The formatters *)

(** [s.replace(/(\d{4})/g, '$1 ')]: scanning from the left, four
    digits in a row are copied and followed by a space. *)
Fixpoint space_after_four_digits (s : jsstring) : jsstring :=
  match s with
  | [] => []
  | a :: t =>
      match t with
      | b :: c :: d :: rest =>
          if is_digit a && is_digit b && is_digit c && is_digit d
          then a :: b :: c :: d :: space :: space_after_four_digits rest
          else a :: space_after_four_digits t
      | _ => a :: space_after_four_digits t
      end
  end.

Definition card_number_format (input : jsstring) : jsstring :=
  let value := substring0 16 (remove_non_digits input) in
  trim (space_after_four_digits value).

Definition formatCardNumber (input : jsstring) (c : CheckoutComponent)
  : CheckoutComponent :=
  set_paymentForm
    (Form.set_cardNumber
       (Form.setValue (Some (card_number_format input))
                      (cardNumber (paymentForm c)))
       (paymentForm c)) c.

Definition expiry_date_format (input : jsstring) : jsstring :=
  let value := substring0 4 (remove_non_digits input) in
  if 2 <? List.length value
  then firstn 2 value ++ [space; slash; space] ++ skipn 2 value
  else value.

Definition formatExpiryDate (input : jsstring) (c : CheckoutComponent)
  : CheckoutComponent :=
  set_paymentForm
    (Form.set_expiryDate
       (Form.setValue (Some (expiry_date_format input))
                      (expiryDate (paymentForm c)))
       (paymentForm c)) c.

(* ---------------------------------------------------------------- *)
(** *** [retry] *)

Definition retry (c : CheckoutComponent) : CheckoutComponent :=
  set_errorMessage None (set_paymentResult None (set_status READY_TO_PAY c)).

End Checkout.

Import Checkout.

(* ------------------------------------------------------------------ *)
(** ** The component among its collaborators

    Between two events the component is idle. An event is a call from
    the view or the router, or the answer to a request in flight;
    requests are answered in any order. *)
(* ------------------------------------------------------------------ *)

Module Run.

Inductive Task : Type :=
| LookupTask (link_id : jsstring)
| TokenTask
| PaymentTask.

Record System : Type := {
  component : CheckoutComponent;
  pending : list Task
}.

Inductive Field : Type :=
| CardNumberField | ExpiryDateField | CvcField | CardHolderField
| SearchField.

Inductive Event : Type :=
| RouteParams (param_id : option jsstring)
| LoadLink (link_id : jsstring)
| Search
| OnSubmit
| Retry
| FormatCardNumber (input : jsstring)
| FormatExpiryDate (input : jsstring)
| Input (field : Field) (text : jsstring)
| LinkAnswered (n : nat) (answer : LinkAnswer)
| TokenAnswered (n : nat) (token : TokenAnswer) (uuid : UuidAnswer)
| PaymentAnswered (n : nat) (answer : PaymentAnswer).

(** The [n]-th request in flight and the others. *)
Fixpoint take_task (n : nat) (tasks : list Task) {struct tasks}
  : option (Task * list Task) :=
  match tasks, n with
  | [], _ => None
  | t :: rest, O => Some (t, rest)
  | t :: rest, S n' =>
      match take_task n' rest with
      | Some (t', rest') => Some (t', t :: rest')
      | None => None
      end
  end.

(** The user types into a field. *)
Definition input (field : Field) (text : jsstring) (c : CheckoutComponent)
  : CheckoutComponent :=
  let f := paymentForm c in
  match field with
  | CardNumberField =>
      Signal.set_paymentForm
        (Form.set_cardNumber (Form.setValue (Some text) (cardNumber f)) f) c
  | ExpiryDateField =>
      Signal.set_paymentForm
        (Form.set_expiryDate (Form.setValue (Some text) (expiryDate f)) f) c
  | CvcField =>
      Signal.set_paymentForm
        (Form.set_cvc (Form.setValue (Some text) (cvc f)) f) c
  | CardHolderField =>
      Signal.set_paymentForm
        (Form.set_cardHolder (Form.setValue (Some text) (cardHolder f)) f) c
  | SearchField =>
      Signal.set_searchControl
        (Form.setValue (Some text) (searchControl c)) c
  end.

Definition after (c : CheckoutComponent) (tasks : list Task) : System :=
  {| component := c; pending := tasks |}.

(** [None]: the event cannot happen (no such request in flight). *)
Definition step (e : Event) (sys : System) : option System :=
  let c := component sys in
  let p := pending sys in
  match e with
  | RouteParams param_id =>
      match route_params param_id c with
      | (c', Some link_id) => Some (after c' (p ++ [LookupTask link_id]))
      | (c', None) => Some (after c' p)
      end
  | LoadLink link_id =>
      Some (after (loadLink_call link_id c) (p ++ [LookupTask link_id]))
  | Search => Some (after (search c) p)
  | OnSubmit =>
      match onSubmit_call c with
      | (c', true) => Some (after c' (p ++ [TokenTask]))
      | (c', false) => Some (after c' p)
      end
  | Retry => Some (after (retry c) p)
  | FormatCardNumber text => Some (after (formatCardNumber text c) p)
  | FormatExpiryDate text => Some (after (formatExpiryDate text c) p)
  | Input field text => Some (after (input field text c) p)
  | LinkAnswered n answer =>
      match take_task n p with
      | Some (LookupTask link_id, p') =>
          Some (after (loadLink_answer link_id answer c) p')
      | _ => None
      end
  | TokenAnswered n token uuid =>
      match take_task n p with
      | Some (TokenTask, p') =>
          match onSubmit_tokenized token uuid c with
          | (c', true) => Some (after c' (p' ++ [PaymentTask]))
          | (c', false) => Some (after c' p')
          end
      | _ => None
      end
  | PaymentAnswered n answer =>
      match take_task n p with
      | Some (PaymentTask, p') => Some (after (onSubmit_answer answer c) p')
      | _ => None
      end
  end.

Definition start : System := after Checkout.initial [].

(** Modelled from the spec: the template [checkout.component.html],
    which decides when the view offers a call, is not among the sources.
    By the transition table of the specification the payment form is
    submitted in READY_TO_PAY and [retry] is offered in FAILED and
    ERROR_RETRYABLE; route events, lookups, searches, typing and the
    collaborators' answers may come at any time. *)
Definition offered (e : Event) (c : CheckoutComponent) : bool :=
  match e, status c with
  | OnSubmit, READY_TO_PAY => true
  | OnSubmit, _ => false
  | Retry, (FAILED | ERROR_RETRYABLE) => true
  | Retry, _ => false
  | _, _ => true
  end.

Definition always (e : Event) (c : CheckoutComponent) : bool := true.

(** The states reached from [start] by events that [allowed] admits. *)
Inductive reachable_by (allowed : Event -> CheckoutComponent -> bool)
  : System -> Prop :=
| reach_start : reachable_by allowed start
| reach_step : forall sys e sys',
    reachable_by allowed sys ->
    allowed e (component sys) = true ->
    step e sys = Some sys' ->
    reachable_by allowed sys'.

(** Any sequence of operations. *)
Definition reachable : System -> Prop := reachable_by always.

(** Sequences in which the view's guards are respected. *)
Definition reachable_in_view : System -> Prop := reachable_by offered.

(** Running a list of events, stopping at the first that cannot
    happen or is not allowed. *)
Fixpoint run (allowed : Event -> CheckoutComponent -> bool)
         (events : list Event) (sys : System) : option System :=
  match events with
  | [] => Some sys
  | e :: rest =>
      if allowed e (component sys) then
        match step e sys with
        | Some sys' => run allowed rest sys'
        | None => None
        end
      else None
  end.

Definition is_submission (t : Task) : bool :=
  match t with
  | LookupTask _ => false
  | TokenTask | PaymentTask => true
  end.

(** A submission is in flight. *)
Definition submitting (sys : System) : bool :=
  existsb is_submission (pending sys).

(** *** The consistency invariant of the specification *)

Definition present {A : Type} (o : option A) : Prop := o <> None.
Definition absent {A : Type} (o : option A) : Prop := o = None.

Definition consistent (c : CheckoutComponent) : Prop :=
  (status c = READY_TO_PAY ->
   present (paymentLink c) /\ absent (paymentResult c))
  /\ (status c = COMPLETED \/ status c = FAILED ->
      present (paymentResult c)).

(** *** What holds of the states that are reached *)

(** With no submission in flight the payment form is enabled. *)
Definition form_enabled_at_rest (sys : System) : Prop :=
submitting sys = false ->
disabled (paymentForm (component sys)) = false.

(** The statuses in which no link has been asked for or found yet. *)
Definition before_link (s : CheckoutStatus) : Prop :=
s = INITIALIZING \/ s = AWAITING_INPUT \/ s = LOADING_LINK
\/ s = LINK_NOT_FOUND.

(** While no link is stored, the status is one of those and no
    submission is in flight. *)
Definition link_stored_first (sys : System) : Prop :=
paymentLink (component sys) = None ->
before_link (status (component sys)) /\ submitting sys = false.

(** COMPLETED and FAILED come with a result. *)
Definition outcome_has_result (c : CheckoutComponent) : Prop :=
status c = COMPLETED \/ status c = FAILED -> present (paymentResult c).

End Run.
Import Run.

(* ------------------------------------------------------------------ *)
(** ** Notions of the specification, and sample data *)
(* ------------------------------------------------------------------ *)

(** The error body carries a [message] field that is a string. *)
Definition carries_string_message (body : JsValue) (m : jsstring) : Prop :=
  exists properties,
    body = JsObject properties
    /\ Js.lookup (lit "message") properties = Some (JsText m).

(** The card-number rule in the words of the specification: between 16
    and 19 digits and a valid checksum, both taken on the digits alone. *)
Definition digits_rule (v : jsstring) : bool :=
  let digits := remove_non_digits v in
  (16 <=? List.length digits) && (List.length digits <=? 19)
  && match luhnValidator (Some digits) with None => true | Some _ => false end.

Module Sample.

Definition fees (total : number) : FeePreview :=
  {| fxRate := decimal 205 1;
     totalFeesUsd := total;
     recipientAmountMxn := of_Z 2050;
     breakdown := {| fixedFeeUsd := of_Z 2;
                     variableFeeUsd := decimal 25 1;
                     fxMarkupUsd := of_Z 1;
                     firstTxDiscountUsd := of_Z 0 |} |}.

Definition link (link_id : string) (amount total_fees : number)
  : PaymentLinkWithPreviewResponse :=
  {| id := lit link_id;
     merchantId := lit "merchant123";
     link_status := Link_ACTIVE;
     amountUsd := amount;
     description := lit "Test payment";
     expiresAt := None;
     createdAt := lit "2024-01-01T00:00:00Z";
     updatedAt := lit "2024-01-01T00:00:00Z";
     checkoutUrl := lit "https://checkout.example.com/link123";
     feePreview := fees total_fees |}.

Definition response (outcome : PaymentStatus) : ProcessPaymentResponse :=
  {| transactionId := lit "txn123";
     payment_status := outcome;
     paymentLinkId := lit "link123";
     payment_pspProvider := STRIPE;
     payment_amountUsd := of_Z 100;
     payment_recipientAmountMxn := of_Z 2050;
     fxRateApplied := decimal 205 1;
     payment_totalFeesUsd := decimal 55 1 |}.

(** The component once [link] has been looked up. *)
Definition loaded (l : PaymentLinkWithPreviewResponse)
  : CheckoutComponent :=
  loadLink (id l) (LinkNext l) Checkout.initial.

(** The payment form filled in by hand. *)
Definition filled (card : string) (c : CheckoutComponent)
  : CheckoutComponent :=
  Run.input CvcField (lit "123")
    (Run.input ExpiryDateField (lit "12 / 25")
       (Run.input CardNumberField (lit card) c)).

Definition answers (answer : PaymentAnswer) : SubmitAnswers :=
  {| token_answer := TokenResolved (lit "tok_mock_stripe_1");
     uuid_answer := UuidReturned (lit "key-1");
     payment_answer := answer |}.

Definition server_error (message : string) : HttpErrorResponse :=
  {| error := JsObject [(lit "statusCode", JsNumber (of_Z 502));
                        (lit "message", JsText (lit message))] |}.

(** A loaded link and a payment form that validates. *)
Definition ready : CheckoutComponent :=
filled "4532015112830366" (loaded (link "link123" (of_Z 100) (decimal 55 1))).

(** The three failures [retry] recovers from. *)
Definition declined : CheckoutComponent :=
onSubmit (answers (PaymentNext (response Payment_FAILED))) ready.

Definition gateway_down : CheckoutComponent :=
onSubmit (answers (PaymentError (server_error "Bad gateway"))) ready.

Definition no_link_id : CheckoutComponent :=
onSubmit (answers (PaymentNext (response Payment_COMPLETED)))
         (filled "4532015112830366" Checkout.initial).

(** [retry] called before anything else. *)
Definition early_retry : list Event := [Retry].

(** A payment that completes, then a second link opened in the same
    component. *)
Definition pay_then_open_another : list Event :=
[ RouteParams (Some (lit "link123"));
  LinkAnswered 0 (LinkNext (link "link123" (of_Z 100) (decimal 55 1)));
  Input CardNumberField (lit "4532015112830366");
  Input ExpiryDateField (lit "12 / 25");
  Input CvcField (lit "123");
  OnSubmit;
  TokenAnswered 0 (TokenResolved (lit "tok_mock_stripe_1"))
                (UuidReturned (lit "key-1"));
  PaymentAnswered 0 (PaymentNext (response Payment_COMPLETED));
  RouteParams (Some (lit "link456"));
  LinkAnswered 0 (LinkNext (link "link456" (of_Z 20) (of_Z 1))) ].

(** The payment of [pay_then_open_another] alone. *)
Definition pay : list Event := firstn 8 pay_then_open_another.

(** A payment form submitted and the tokenizer still to answer. *)
Definition submit_only : list Event := firstn 6 pay_then_open_another.

(** The state after a list of events ([start] when they cannot run). *)
Definition after_events (allowed : Event -> CheckoutComponent -> bool)
           (events : list Event) : System :=
match run allowed events start with
| Some sys => sys
| None => start
end.

End Sample.

(* ------------------------------------------------------------------ *)
(** ** mock-psp-sdk.service.ts, api.service.ts,
       fee-breakdown.component.ts *)
(* ------------------------------------------------------------------ *)

Module MockPspSdkService.

(** [psp.toLowerCase()] *)
Definition toLowerCase (psp : PspProvider) : jsstring :=
  match psp with
  | STRIPE => lit "stripe"
  | ADYEN => lit "adyen"
  end.

(** The token the promise resolves with, given what
    [crypto.randomUUID()] returned inside the timer. *)
Definition createToken (psp : PspProvider) (uuid : jsstring) : jsstring :=
  lit "tok_mock_" ++ toLowerCase psp ++ lit "_" ++ uuid.

End MockPspSdkService.

Module ApiService.

Definition baseUrl : jsstring := lit "https://kira-payment-api.onrender.com".

(** What is handed to [HttpClient]. *)
Inductive HttpRequest : Type :=
| http_get (url : jsstring)
| http_post (url : jsstring) (body : ProcessPaymentRequest).

Definition getPaymentLink (link_id : jsstring) : HttpRequest :=
  http_get (baseUrl ++ lit "/payment-links/" ++ link_id).

Definition processPayment (link_id : jsstring)
           (request : ProcessPaymentRequest) : HttpRequest :=
  http_post (baseUrl ++ lit "/payment-links/" ++ link_id ++ lit "/payments")
            request.

Definition url (r : HttpRequest) : jsstring :=
  match r with
  | http_get u => u
  | http_post u _ => u
  end.

End ApiService.

Module FeeBreakdownComponent.

Record State : Type := {
  feePreview_input : FeePreview;
  baseAmount : number;
  isOpen : bool
}.

(** The component as created: the panel is closed. *)
Definition create (fees : FeePreview) (amount : number) : State :=
  {| feePreview_input := fees; baseAmount := amount; isOpen := false |}.

Definition toggle (s : State) : State :=
  {| feePreview_input := feePreview_input s;
     baseAmount := baseAmount s;
     isOpen := negb (isOpen s) |}.

Fixpoint toggles (n : nat) (s : State) : State :=
  match n with
  | O => s
  | S n' => toggle (toggles n' s)
  end.

End FeeBreakdownComponent.

(* ------------------------------------------------------------------ *)
(** ** Further notions about the running component *)
(* ------------------------------------------------------------------ *)

Module Watch.

(** A character the card-number formatter may put out. *)
Definition digit_or_space (c : code_unit) : Prop :=
  is_digit c = true \/ c = Checkout.space.


Definition is_token_task (t : Task) : bool :=
  match t with TokenTask => true | _ => false end.



(** The error message goes with the status. *)
Definition message_with_status (c : CheckoutComponent) : Prop :=
  (status c = ERROR_RETRYABLE -> present (errorMessage c))
  /\ (status c = PROCESSING_PAYMENT -> errorMessage c = None).

(** The event is the answer of a lookup that found a link. *)
Definition stores_link (e : Event) : bool :=
  match e with
  | LinkAnswered _ (LinkNext _) => true
  | _ => false
  end.

(** The event writes a field of the payment form: typing and the two
    formatters. *)
Definition writes_field (e : Event) : bool :=
  match e with
  | Input _ _ | FormatCardNumber _ | FormatExpiryDate _ => true
  | _ => false
  end.

(** What the user typed into the payment form. *)
Definition card_data (c : CheckoutComponent)
  : ControlValue * ControlValue * ControlValue * ControlValue :=
  let f := paymentForm c in
  (value (cardNumber f), value (expiryDate f), value (cvc f),
   value (cardHolder f)).

Definition is_createToken (x : Call) : bool :=
  match x with createToken _ => true | _ => false end.

Definition is_processPayment (x : Call) : bool :=
  match x with processPayment _ _ => true | _ => false end.

Definition count {A : Type} (f : A -> bool) (l : list A) : nat :=
  List.length (filter f l).

(** A call as the component makes them: tokens are asked of STRIPE,
    payments go to a link with an id and name STRIPE, and navigation
    goes to an id that is not empty. *)
Definition well_formed_call (x : Call) : Prop :=
  match x with
  | createToken psp => psp = STRIPE
  | processPayment link_id request =>
      JsString.truthy link_id = true /\ pspProvider request = STRIPE
  | navigate link_id => JsString.truthy link_id = true
  | getPaymentLink _ => True
  end.

(** Tokens come before payments. *)
Definition tokens_before_payments (sys : System) : Prop :=
  count is_processPayment (calls (component sys))
  + count is_token_task (pending sys)
  <= count is_createToken (calls (component sys)).

(** The digit [0]. *)
Definition zero_digit : code_unit := 48%N.

End Watch.
Import Watch.

(* ================================================================== *)
(** * Properties *)
(* ================================================================== *)

(* ------------------------------------------------------------------ *)
(** ** The Luhn validator *)
(* ------------------------------------------------------------------ *)

Section Luhn.

Lemma all_digits_spec (s : jsstring) :
  all_digits s = true <-> s <> [] /\ forallb is_digit s = true.
Proof.
  destruct s as [|c s]; simpl.
  - split; [discriminate | intros [H _]; now elim H].
  - split; [intros H; split; [discriminate | exact H] | now intros [_ H]].
Qed.

Lemma remove_spaces_nonempty (s : jsstring) :
  remove_spaces s <> [] -> s <> [].
Proof. intros H E; subst s; now apply H. Qed.

(** On a nonempty value the validator is its second half. *)
Lemma luhnValidator_nonempty (s : jsstring) :
  s <> [] ->
  luhnValidator (Some s) =
  if negb (all_digits (remove_spaces s)) then Some E_luhn
  else match luhn_loop (rev (remove_spaces s)) (Some 0%Z) false with
       | Some sum => if (sum mod 10 =? 0)%Z then None else Some E_luhn
       | None => Some E_luhn
       end.
Proof. destruct s; [now intros H; elim H | reflexivity]. Qed.

(** The loop adds to the running sum the terms of the checksum; the
    flag is the parity of the position. *)
Lemma luhn_loop_checksum (rest : jsstring) :
  forallb is_digit rest = true ->
  forall (position : nat) (sum : Z),
    luhn_loop rest (Some sum) (Nat.odd position)
    = Some (sum + checksum_from position rest)%Z.
Proof.
  induction rest as [|c rest IH]; intros Hd position sum; simpl.
  - now rewrite Z.add_0_r.
  - simpl in Hd. apply andb_true_iff in Hd. destruct Hd as [Hc Hrest].
    unfold parseInt, checksum_term, digit_value. rewrite Hc.
    rewrite Nat.negb_odd, <- Nat.odd_succ.
    destruct (Nat.odd position) eqn:Hp;
      rewrite (IH Hrest (S position)); f_equal;
      rewrite ?(Z.mul_comm (Z.of_N c - 48) 2); ring.
Qed.

Lemma luhn_loop_digits (digits : jsstring) :
  forallb is_digit digits = true ->
  luhn_loop (rev digits) (Some 0%Z) false = Some (luhn_checksum digits).
Proof.
  intros Hd. unfold luhn_checksum.
  change false with (Nat.odd 0).
  rewrite luhn_loop_checksum; [reflexivity|].
  rewrite forallb_forall in *. intros c Hc. apply Hd.
  now apply in_rev.
Qed.

Lemma luhnValidator_digits (s : jsstring) :
  all_digits (remove_spaces s) = true ->
  luhnValidator (Some s) =
  if (luhn_checksum (remove_spaces s) mod 10 =? 0)%Z
  then None else Some E_luhn.
Proof.
  intros H. pose proof H as H'. apply all_digits_spec in H'.
  destruct H' as [Hne Hd].
  rewrite luhnValidator_nonempty by now apply remove_spaces_nonempty.
  rewrite H; simpl. now rewrite luhn_loop_digits.
Qed.

Lemma luhnValidator_non_digit (s : jsstring) :
  remove_spaces s <> [] ->
  forallb is_digit (remove_spaces s) = false ->
  luhnValidator (Some s) = Some E_luhn.
Proof.
  intros Hne Hd.
  rewrite luhnValidator_nonempty by now apply remove_spaces_nonempty.
  destruct (all_digits (remove_spaces s)) eqn:E; [|reflexivity].
  apply all_digits_spec in E. destruct E as [_ E]. congruence.
Qed.

Lemma luhnValidator_spaces (s t : jsstring) :
  remove_spaces s = remove_spaces t ->
  remove_spaces s <> [] ->
  luhnValidator (Some s) = luhnValidator (Some t).
Proof.
  intros E Hne.
  rewrite (luhnValidator_nonempty s)
    by now apply remove_spaces_nonempty.
  rewrite (luhnValidator_nonempty t)
    by (apply remove_spaces_nonempty; now rewrite <- E).
  now rewrite E.
Qed.

End Luhn.

(** C5. On an input whose whitespace-stripped form is a nonempty string
    of digits the validator reports no error exactly when the checksum
    (digits numbered from the right, those at odd positions doubled, 9
    taken off a doubled digit above 9) is 0 modulo 10; two inputs that
    differ only in whitespace get the same verdict; an input whose
    stripped form is nonempty and has a character that is not a digit is
    reported invalid; and the four sample numbers come out as stated. *)
Theorem C5_luhn_validator :
  (forall s, all_digits (remove_spaces s) = true ->
     (luhnValidator (Some s) = None
      <-> (luhn_checksum (remove_spaces s) mod 10 = 0)%Z))
  /\ (forall s t, remove_spaces s = remove_spaces t ->
        remove_spaces s <> [] ->
        luhnValidator (Some s) = luhnValidator (Some t))
  /\ (forall s, remove_spaces s <> [] ->
        forallb is_digit (remove_spaces s) = false ->
        luhnValidator (Some s) = Some E_luhn)
  /\ luhnValidator (Some (lit "4532015112830366")) = None
  /\ luhnValidator (Some (lit "79927398713")) = None
  /\ luhnValidator (Some (lit "1234567890123456")) = Some E_luhn
  /\ luhnValidator (Some (lit "79927398714")) = Some E_luhn.
Proof.
  split; [|split; [|split]].
  - intros s H. rewrite (luhnValidator_digits _ H).
    destruct (Z.eqb_spec (luhn_checksum (remove_spaces s) mod 10) 0).
    + tauto.
    + split; [discriminate | tauto].
  - exact luhnValidator_spaces.
  - exact luhnValidator_non_digit.
  - repeat split; vm_compute; reflexivity.
Qed.

(** C5 at work: the sample number written with spaces between groups. *)
Lemma C5_luhn_validator_witness :
  all_digits (remove_spaces (lit "4532 0151 1283 0366")) = true
  /\ (luhn_checksum (remove_spaces (lit "4532 0151 1283 0366")) mod 10 = 0)%Z
  /\ luhnValidator (Some (lit "4532 0151 1283 0366")) = None
  /\ luhnValidator (Some (lit "4532 0151 1283 0366"))
     = luhnValidator (Some (lit "4532015112830366"))
  /\ luhnValidator (Some (lit "4532 0151 x")) = Some E_luhn.
Proof.
  split; [vm_compute; reflexivity|].
  split; [vm_compute; reflexivity|].
  split; [|split].
  - apply (proj1 C5_luhn_validator (lit "4532 0151 1283 0366"));
      vm_compute; reflexivity.
  - apply (proj1 (proj2 C5_luhn_validator));
      [vm_compute; reflexivity | vm_compute; discriminate].
  - apply (proj1 (proj2 (proj2 C5_luhn_validator)));
      [vm_compute; discriminate | vm_compute; reflexivity].
Defined.

(** C9 as stated fails: a single space is a whitespace-only candidate,
    and the validator reports it. *)
Lemma C9_whitespace_only_counterexample :
  remove_spaces (lit " ") = []
  /\ luhnValidator (Some (lit " ")) <> None.
Proof. split; vm_compute; [reflexivity | discriminate]. Qed.

(** C9, amended. The validator reports no error for [null] and for the
    empty string; a nonempty candidate that consists of whitespace only
    is reported invalid. *)
Theorem C9_luhn_empty :
  luhnValidator None = None
  /\ luhnValidator (Some []) = None
  /\ (forall s, s <> [] -> remove_spaces s = [] ->
        luhnValidator (Some s) = Some E_luhn).
Proof.
  split; [reflexivity|]. split; [reflexivity|].
  intros s Hne E. rewrite luhnValidator_nonempty by assumption.
  now rewrite E.
Qed.

Lemma C9_luhn_empty_witness :
  luhnValidator (Some (lit "  ")) = Some E_luhn.
Proof.
  apply (proj2 (proj2 C9_luhn_empty));
    [vm_compute; discriminate | vm_compute; reflexivity].
Defined.

(* ------------------------------------------------------------------ *)
(** ** The derived total *)
(* ------------------------------------------------------------------ *)

Section Rounding.

(** [Math.round] rounds half away from zero except on a negative
    tie, which goes toward +infinity. *)
Lemma Math_round_half_away (x : number) :
  negative_tie x = false ->
  Math_round x = round_half_away_from_zero x.
Proof.
  destruct x as [s|s| |s m e]; try reflexivity.
  unfold Math_round, round_half_away_from_zero, negative_tie.
  destruct (Z.leb_spec 0 e) as [He|He]; [reflexivity|].
  destruct s; [|reflexivity].
  destruct (Z.ltb_spec e 0) as [_|]; [|lia].
  rewrite andb_true_l. intros Htie. apply Z.eqb_neq in Htie.
  set (k := (- e)%Z) in *.
  assert (Hk : (0 <= k)%Z) by (subst k; lia).
  set (a := (2 * Z.pos m + 2 ^ k)%Z) in *.
  assert (HB : (2 ^ (k + 1) = 2 * 2 ^ k)%Z)
    by (rewrite Z.pow_add_r by lia; ring).
  assert (HBpos : (0 < 2 ^ (k + 1))%Z) by (apply Z.pow_pos_nonneg; lia).
  replace (2 * Z.neg m + 2 ^ k)%Z with (- a + 1 * 2 ^ (k + 1))%Z
    by (subst a; rewrite HB; lia).
  rewrite Z.div_add by lia.
  rewrite Z.div_opp_l_nz by (try lia; exact Htie).
  replace (- (a / 2 ^ (k + 1)) - 1 + 1)%Z with (- (a / 2 ^ (k + 1)))%Z
    by ring.
  destruct (Z.eqb_spec (a / 2 ^ (k + 1)) 0) as [E|E].
  - rewrite E. reflexivity.
  - destruct (Z.eqb_spec (- (a / 2 ^ (k + 1))) 0); [lia | reflexivity].
Qed.

End Rounding.

(** C6 as stated fails: for a link of amount -0.125 and no fees the
    product is the tie -12.5; the code yields -0.12 and rounding half
    away from zero would yield -0.13. *)
Lemma C6_negative_tie_counterexample :
  let c := Sample.loaded (Sample.link "link123" (decimal (-125) 3) (of_Z 0)) in
  let cents := mul (add (decimal (-125) 3) (of_Z 0)) hundred in
  cents = decimal (-125) 1
  /\ totalAmount c = decimal (-12) 2
  /\ div (round_half_away_from_zero cents) hundred = decimal (-13) 2
  /\ totalAmount c <> div (round_half_away_from_zero cents) hundred.
Proof. vm_compute. repeat split; discriminate. Qed.

(** The product that is rounded is a binary64 value: for an amount of
    1.005 it is 100.49999999999999, and the total is 1. *)
Example totalAmount_binary64 :
  totalAmount (Sample.loaded (Sample.link "link123" (decimal 1005 3) (of_Z 0)))
  = of_Z 1.
Proof. vm_compute. reflexivity. Qed.

(** C6, amended. With no link loaded the total is 0. With a link loaded
    it is [Math.round((amountUsd + totalFeesUsd) * 100) / 100] in
    binary64 arithmetic, which rounds the cents half away from zero
    unless they are a negative tie (then toward +infinity); base 100 with
    fees 5.555 yields 105.56. *)
Theorem C6_totalAmount :
  (forall c, paymentLink c = None -> totalAmount c = zero)
  /\ (forall c link, paymentLink c = Some link ->
        let cents :=
          mul (add (amountUsd link) (totalFeesUsd (feePreview link)))
              (of_Z 100) in
        totalAmount c = div (Math_round cents) (of_Z 100)
        /\ (negative_tie cents = false ->
            totalAmount c
            = div (round_half_away_from_zero cents) (of_Z 100)))
  /\ (forall c link, paymentLink c = Some link ->
        amountUsd link = of_Z 100 ->
        totalFeesUsd (feePreview link) = decimal 5555 3 ->
        totalAmount c = decimal 10556 2).
Proof.
  split; [|split].
  - intros c H. unfold totalAmount. now rewrite H.
  - intros c link H cents. unfold totalAmount. rewrite H.
    fold hundred. fold cents. split; [reflexivity|].
    intros Htie. now rewrite Math_round_half_away.
  - intros c link H Ha Hf. unfold totalAmount. rewrite H, Ha, Hf.
    vm_compute. reflexivity.
Qed.

Lemma C6_totalAmount_witness :
  totalAmount Checkout.initial = zero
  /\ totalAmount (Sample.loaded
                    (Sample.link "link123" (of_Z 100) (decimal 5555 3)))
     = decimal 10556 2
  /\ totalAmount (Sample.loaded
                    (Sample.link "link123" (of_Z 100) (decimal 55 1)))
     = div (round_half_away_from_zero
              (mul (add (of_Z 100) (decimal 55 1)) (of_Z 100))) (of_Z 100).
Proof.
  split; [|split].
  - apply (proj1 C6_totalAmount). reflexivity.
  - apply (proj2 (proj2 C6_totalAmount) _
             (Sample.link "link123" (of_Z 100) (decimal 5555 3)));
      reflexivity.
  - apply (proj2 (proj1 (proj2 C6_totalAmount)
             (Sample.loaded (Sample.link "link123" (of_Z 100) (decimal 55 1)))
             (Sample.link "link123" (of_Z 100) (decimal 55 1))
             eq_refl)).
    vm_compute. reflexivity.
Defined.

(* ------------------------------------------------------------------ *)
(** ** Link lookup and retry *)
(* ------------------------------------------------------------------ *)

(** C10. A lookup that fails sets LINK_NOT_FOUND and puts the attempted
    id into the search field; the stored link and the derived total
    are what they were before the lookup. So after the link of base 100
    and fees 5.555 was loaded and a second lookup failed, the total is
    still 105.56. *)
Theorem C10_failed_lookup_keeps_link :
  (forall (c : CheckoutComponent) (link_id : jsstring),
      let c' := loadLink link_id LinkError c in
      status c' = LINK_NOT_FOUND
      /\ value (searchControl c') = Some link_id
      /\ paymentLink c' = paymentLink c
      /\ totalAmount c' = totalAmount c)
  /\ (let c := Sample.loaded
                 (Sample.link "link123" (of_Z 100) (decimal 5555 3)) in
      let c' := loadLink (lit "missing") LinkError c in
      status c = READY_TO_PAY
      /\ status c' = LINK_NOT_FOUND
      /\ value (searchControl c') = Some (lit "missing")
      /\ paymentLink c' = paymentLink c
      /\ totalAmount c' = decimal 10556 2).
Proof.
  split.
  - intros c link_id. repeat split.
  - vm_compute. repeat split.
Qed.

(** C4. From FAILED and from ERROR_RETRYABLE, [retry] sets READY_TO_PAY
    and clears the payment result and the error message. *)
Theorem C4_retry_resets :
  forall c : CheckoutComponent,
    status c = FAILED \/ status c = ERROR_RETRYABLE ->
    status (retry c) = READY_TO_PAY
    /\ paymentResult (retry c) = None
    /\ errorMessage (retry c) = None.
Proof. intros c _. repeat split. Qed.

(* ------------------------------------------------------------------ *)
(** ** Submitting the payment form *)
(* ------------------------------------------------------------------ *)

Section Submit.

Lemma payment_error_message_server (err : HttpErrorResponse) (m : jsstring) :
  carries_string_message (error err) m -> payment_error_message err = m.
Proof.
  intros [properties [Hbody Hm]]. unfold payment_error_message.
  rewrite Hbody. simpl. now rewrite Hm.
Qed.

Lemma payment_error_message_generic (err : HttpErrorResponse) :
  (forall m, ~ carries_string_message (error err) m) ->
  payment_error_message err = generic_payment_message.
Proof.
  intros H. unfold payment_error_message.
  destruct (error err) as [| |b|n|s|properties] eqn:E; simpl;
    try reflexivity; try (now destruct (Js.is_zero n || Js.is_NaN n));
    try (now destruct b); try (now destruct (JsString.truthy s)).
  destruct (Js.lookup (lit "message") properties) as [v|] eqn:L;
    [|reflexivity].
  destruct v; try reflexivity.
  exfalso. apply (H s). exists properties. now split.
Qed.

(** A call on an invalid form: the fields are marked, nothing else. *)
Lemma onSubmit_invalid (env : SubmitAnswers) (c : CheckoutComponent) :
  paymentForm_invalid (paymentForm c) = true ->
  onSubmit env c
  = Signal.set_paymentForm (Form.markAllAsTouched (paymentForm c)) c.
Proof. intros H. unfold onSubmit, onSubmit_call. now rewrite H. Qed.

(** A call on a form that is not invalid. *)
Lemma onSubmit_valid (env : SubmitAnswers) (c : CheckoutComponent) :
  paymentForm_invalid (paymentForm c) = false ->
  onSubmit env c
  = match onSubmit_tokenized (token_answer env) (uuid_answer env)
            (fst (onSubmit_call c)) with
    | (c', false) => c'
    | (c', true) => onSubmit_answer (payment_answer env) c'
    end.
Proof. intros H. unfold onSubmit, onSubmit_call. now rewrite H. Qed.

(** An invalid form is an enabled form. *)
Lemma invalid_form_enabled (f : PaymentForm) :
  paymentForm_invalid f = true -> disabled f = false.
Proof. unfold paymentForm_invalid. now destruct (disabled f). Qed.

(** Whatever the collaborators answer, a finished call leaves the form
    enabled. *)
Lemma onSubmit_leaves_form_enabled (env : SubmitAnswers)
      (c : CheckoutComponent) :
  disabled (paymentForm (onSubmit env c)) = false.
Proof.
  destruct (paymentForm_invalid (paymentForm c)) eqn:Hv.
  - rewrite onSubmit_invalid by assumption. simpl.
    now apply invalid_form_enabled.
  - rewrite onSubmit_valid by assumption.
    unfold onSubmit_call. rewrite Hv. unfold onSubmit_tokenized.
    destruct (token_answer env); [|reflexivity].
    destruct (uuid_answer env); [|reflexivity].
    simpl. destruct (paymentLink c) as [link|]; [|reflexivity]. simpl.
    destruct (JsString.truthy (id link)); reflexivity.
Qed.

Lemma onSubmit_leaves_processing (env : SubmitAnswers)
      (c : CheckoutComponent) :
  paymentForm_invalid (paymentForm c) = false ->
  status (onSubmit env c) = COMPLETED
  \/ status (onSubmit env c) = FAILED
  \/ status (onSubmit env c) = ERROR_RETRYABLE.
Proof.
  intros Hv. rewrite onSubmit_valid by assumption.
  unfold onSubmit_call. rewrite Hv. unfold onSubmit_tokenized.
  destruct (token_answer env); [|now right; right].
  destruct (uuid_answer env); [|now right; right].
  simpl. destruct (paymentLink c) as [link|]; [|now right; right]. simpl.
  destruct (JsString.truthy (id link)); [|now right; right].
  destruct (payment_answer env) as [response|err]; simpl.
  - destruct (payment_status response); simpl; tauto.
  - tauto.
Qed.

End Submit.

(** C1. When the form passes validation, a link with an id is loaded
    and the tokenizer and the key generator have answered: a response
    of the gateway is stored and the status is COMPLETED when the
    response's status is COMPLETED, FAILED otherwise; a failed request
    gives ERROR_RETRYABLE, leaves the stored result as it was, and sets
    the error message to the body's [message] when the body carries one
    that is a string, to the generic message otherwise. In both cases
    the gateway was asked once, for the loaded link. *)
Theorem C1_submit_outcomes :
  forall (c : CheckoutComponent) (link : PaymentLinkWithPreviewResponse)
         (env : SubmitAnswers) (token key : jsstring),
    paymentForm_invalid (paymentForm c) = false ->
    paymentLink c = Some link ->
    JsString.truthy (id link) = true ->
    token_answer env = TokenResolved token ->
    uuid_answer env = UuidReturned key ->
    let c' := onSubmit env c in
    let request := {| cardToken := token;
                      pspProvider := STRIPE;
                      idempotencyKey := key;
                      metadata_cardHolder :=
                        value (cardHolder (paymentForm c)) |} in
    calls c' = (calls c ++ [createToken STRIPE])
                 ++ [processPayment (id link) request]
    /\ (forall response, payment_answer env = PaymentNext response ->
          paymentResult c' = Some response
          /\ (payment_status response = Payment_COMPLETED ->
              status c' = COMPLETED)
          /\ (payment_status response <> Payment_COMPLETED ->
              status c' = FAILED))
    /\ (forall err, payment_answer env = PaymentError err ->
          status c' = ERROR_RETRYABLE
          /\ paymentResult c' = paymentResult c
          /\ (forall m, carries_string_message (error err) m ->
                errorMessage c' = Some m)
          /\ ((forall m, ~ carries_string_message (error err) m) ->
                errorMessage c' = Some generic_payment_message)).
Proof.
  intros c link env token key Hv Hlink Hid Htoken Huuid c' request.
  assert (E : c' = onSubmit_answer (payment_answer env)
                     (Signal.call (processPayment (id link) request)
                                  (fst (onSubmit_call c)))).
  { subst c'. rewrite onSubmit_valid by assumption.
    unfold onSubmit_call. rewrite Hv. unfold onSubmit_tokenized.
    rewrite Htoken, Huuid. simpl. rewrite Hlink. simpl. rewrite Hid.
    reflexivity. }
  rewrite E. unfold onSubmit_call. rewrite Hv.
  split; [|split].
  - destruct (payment_answer env) as [r|e]; simpl;
      [destruct (payment_status r)|]; reflexivity.
  - intros response Hr. rewrite Hr. simpl.
    destruct (payment_status response); simpl; repeat split;
      congruence.
  - intros err He. rewrite He. simpl. repeat split.
    + intros m Hm. now rewrite (payment_error_message_server err m Hm).
    + intros Hnone. now rewrite (payment_error_message_generic _ Hnone).
Qed.

Lemma C1_submit_outcomes_witness :
  (paymentResult
     (onSubmit (Sample.answers (PaymentNext (Sample.response Payment_COMPLETED)))
               Sample.ready)
   = Some (Sample.response Payment_COMPLETED)
   /\ status
        (onSubmit
           (Sample.answers (PaymentNext (Sample.response Payment_COMPLETED)))
           Sample.ready)
      = COMPLETED)
  /\ (status Sample.gateway_down = ERROR_RETRYABLE
      /\ paymentResult Sample.gateway_down = None
      /\ errorMessage Sample.gateway_down = Some (lit "Bad gateway")).
Proof.
  split.
  - destruct (C1_submit_outcomes Sample.ready
                (Sample.link "link123" (of_Z 100) (decimal 55 1))
                (Sample.answers
                   (PaymentNext (Sample.response Payment_COMPLETED)))
                (lit "tok_mock_stripe_1") (lit "key-1")
                ltac:(vm_compute; reflexivity) eq_refl eq_refl eq_refl eq_refl)
      as [_ [Hnext _]].
    destruct (Hnext _ eq_refl) as [Hresult [Hstatus _]].
    split; [exact Hresult | exact (Hstatus eq_refl)].
  - destruct (C1_submit_outcomes Sample.ready
                (Sample.link "link123" (of_Z 100) (decimal 55 1))
                (Sample.answers
                   (PaymentError (Sample.server_error "Bad gateway")))
                (lit "tok_mock_stripe_1") (lit "key-1")
                ltac:(vm_compute; reflexivity) eq_refl eq_refl eq_refl eq_refl)
      as [_ [_ Herror]].
    destruct (Herror _ eq_refl) as [Hstatus [Hresult [Hmessage _]]].
    split; [exact Hstatus|]. split; [exact Hresult|].
    apply Hmessage. eexists. split; reflexivity.
Defined.

Lemma C4_retry_resets_witness :
  (status Sample.declined = FAILED
   /\ status (retry Sample.declined) = READY_TO_PAY
   /\ paymentResult (retry Sample.declined) = None
   /\ errorMessage (retry Sample.declined) = None)
  /\ (status Sample.gateway_down = ERROR_RETRYABLE
      /\ status (retry Sample.gateway_down) = READY_TO_PAY
      /\ paymentResult (retry Sample.gateway_down) = None
      /\ errorMessage (retry Sample.gateway_down) = None)
  /\ (status Sample.no_link_id = ERROR_RETRYABLE
      /\ status (retry Sample.no_link_id) = READY_TO_PAY
      /\ paymentResult (retry Sample.no_link_id) = None
      /\ errorMessage (retry Sample.no_link_id) = None).
Proof.
  split; [|split].
  - split; [vm_compute; reflexivity|].
    apply (C4_retry_resets Sample.declined). left. vm_compute. reflexivity.
  - split; [vm_compute; reflexivity|].
    apply (C4_retry_resets Sample.gateway_down). right.
    vm_compute. reflexivity.
  - split; [vm_compute; reflexivity|].
    apply (C4_retry_resets Sample.no_link_id). right.
    vm_compute. reflexivity.
Defined.

(** C8. A call of [onSubmit] on an invalid payment form marks the four
    fields touched and changes nothing else: status, link, result and
    error message stay, no collaborator is called and no request goes in
    flight. A call of [search] on an invalid search field marks it
    touched and does not navigate. *)
Theorem C8_invalid_input_rejected :
  (forall (c : CheckoutComponent) (env : SubmitAnswers),
      paymentForm_invalid (paymentForm c) = true ->
      let c' := onSubmit env c in
      c' = Signal.set_paymentForm (Form.markAllAsTouched (paymentForm c)) c
      /\ status c' = status c
      /\ paymentLink c' = paymentLink c
      /\ paymentResult c' = paymentResult c
      /\ errorMessage c' = errorMessage c
      /\ calls c' = calls c
      /\ touched (cardNumber (paymentForm c')) = true
      /\ touched (expiryDate (paymentForm c')) = true
      /\ touched (cvc (paymentForm c')) = true
      /\ touched (cardHolder (paymentForm c')) = true
      /\ forall tasks,
           step OnSubmit (after c tasks) = Some (after c' tasks))
  /\ (forall c : CheckoutComponent,
        searchControl_invalid (searchControl c) = true ->
        let c' := search c in
        c' = Signal.set_searchControl
               (Form.markAsTouched (searchControl c)) c
        /\ touched (searchControl c') = true
        /\ calls c' = calls c).
Proof.
  split.
  - intros c env H c'. subst c'. rewrite (onSubmit_invalid env c H).
    repeat split. intros tasks. unfold step, onSubmit_call. simpl.
    now rewrite H.
  - intros c H c'. subst c'. unfold search. rewrite H. repeat split.
Qed.

Lemma C8_invalid_input_rejected_witness :
  (status (onSubmit (Sample.answers (PaymentError (Sample.server_error "x")))
                    Checkout.initial) = INITIALIZING
   /\ calls (onSubmit (Sample.answers (PaymentError (Sample.server_error "x")))
                      Checkout.initial) = [])
  /\ (touched (searchControl
                 (search (Run.input SearchField (lit "abc") Checkout.initial)))
      = true
      /\ calls (search (Run.input SearchField (lit "abc") Checkout.initial))
         = []).
Proof.
  split.
  - destruct (proj1 C8_invalid_input_rejected Checkout.initial
                (Sample.answers (PaymentError (Sample.server_error "x")))
                ltac:(vm_compute; reflexivity))
      as [_ [Hs [_ [_ [_ [Hc _]]]]]].
    split; [exact Hs | exact Hc].
  - destruct (proj2 C8_invalid_input_rejected
                (Run.input SearchField (lit "abc") Checkout.initial)
                ltac:(vm_compute; reflexivity))
      as [_ [Ht Hc]].
    split; [exact Ht | exact Hc].
Defined.

(* ------------------------------------------------------------------ *)
(** ** Invariants of the running component *)
(* ------------------------------------------------------------------ *)

Section Invariants.

Lemma take_task_submitting (tasks : list Task) :
  forall n t rest,
    take_task n tasks = Some (t, rest) ->
    existsb is_submission tasks
    = is_submission t || existsb is_submission rest.
Proof.
  induction tasks as [|t0 tasks IH]; intros n t rest H; simpl in H.
  - discriminate.
  - destruct n as [|n].
    + inversion H; subst. reflexivity.
    + destruct (take_task n tasks) as [[t' rest']|] eqn:E; [|discriminate].
      inversion H; subst. simpl. rewrite (IH n t rest' E).
      destruct (is_submission t0), (is_submission t); reflexivity.
Qed.

Lemma submitting_lookup_added (tasks : list Task) (link_id : jsstring) :
  existsb is_submission (tasks ++ [LookupTask link_id])
  = existsb is_submission tasks.
Proof. rewrite existsb_app. simpl. now rewrite !orb_false_r. Qed.

Lemma submitting_added (tasks : list Task) (t : Task) :
  is_submission t = true ->
  existsb is_submission (tasks ++ [t]) = true.
Proof.
  intros H. rewrite existsb_app. simpl. rewrite H.
  now rewrite orb_true_r.
Qed.

(** Every state reached by running events from a reached state is
    reached. *)
Lemma run_reachable (allowed : Event -> CheckoutComponent -> bool)
      (events : list Event) :
  forall sys sys',
    reachable_by allowed sys ->
    run allowed events sys = Some sys' ->
    reachable_by allowed sys'.
Proof.
  induction events as [|e events IH]; intros sys sys' R H; simpl in H.
  - inversion H; subst. exact R.
  - destruct (allowed e (component sys)) eqn:A; [|discriminate].
    destruct (step e sys) as [sys1|] eqn:S; [|discriminate].
    apply (IH sys1 sys'); [|exact H].
    exact (reach_step allowed sys e sys1 R A S).
Qed.

(** What is allowed under the view's guards is allowed. *)
Lemma reachable_in_view_reachable (sys : System) :
  reachable_in_view sys -> reachable sys.
Proof.
  induction 1 as [|sys e sys' _ IH _ S].
  - apply reach_start.
  - exact (reach_step always sys e sys' IH eq_refl S).
Qed.

Ltac break_match :=
  match goal with
  | H : context [match ?x with _ => _ end] |- _ => destruct x eqn:?
  end.

(** Opens one event: every branch the code can take becomes a goal
    about the component that results. *)
Ltac open_step H :=
  unfold step, route_params, search, onSubmit_call, onSubmit_tokenized,
    onSubmit_answer, loadLink_answer, Run.input in H;
  simpl in H;
  repeat (break_match; simpl in H; try discriminate);
  inversion H; subst; clear H;
  repeat match goal with
         | P : (_, _) = (_, _) |- _ => inversion P; subst; clear P
         end;
  simpl in *.

Lemma step_form_enabled_at_rest (e : Event) (sys sys' : System) :
  step e sys = Some sys' ->
  form_enabled_at_rest sys -> form_enabled_at_rest sys'.
Proof.
  destruct sys as [c tasks]. unfold form_enabled_at_rest, submitting.
  simpl. intros H Inv.
  destruct e; open_step H;
    rewrite ?submitting_lookup_added;
    rewrite ?(submitting_added _ TokenTask eq_refl);
    rewrite ?(submitting_added _ PaymentTask eq_refl);
    try discriminate; try assumption; try reflexivity;
    try (match goal with
         | T : take_task _ _ = Some _ |- _ =>
             rewrite (take_task_submitting _ _ _ _ T) in Inv;
             simpl in Inv; assumption
         end).
Qed.

Lemma step_outcome_has_result (e : Event) (sys sys' : System) :
  step e sys = Some sys' ->
  outcome_has_result (component sys) ->
  outcome_has_result (component sys').
Proof.
  destruct sys as [c tasks]. unfold outcome_has_result, present.
  simpl. intros H Inv.
  destruct e; open_step H;
    try assumption;
    try (intros [?|?]; discriminate);
    try (intros _; discriminate).
Qed.

Lemma step_link_stored_first (e : Event) (sys sys' : System) :
  offered e (component sys) = true ->
  step e sys = Some sys' ->
  link_stored_first sys -> link_stored_first sys'.
Proof.
  destruct sys as [c tasks]. unfold link_stored_first, submitting, before_link.
  simpl. intros Hoffered H Inv.
  destruct e; open_step H;
    rewrite ?submitting_lookup_added;
    try assumption;
    try (intros Hnone; destruct (Inv Hnone) as [Hstatus Hrest];
         split; [tauto | assumption]);
    try (intros Hnone; discriminate).
  all: intros Hnone; destruct (Inv Hnone) as [Hstatus Hrest].
  all: try (unfold offered in Hoffered;
            destruct Hstatus as [E|[E|[E|E]]]; rewrite E in Hoffered;
            discriminate).
  all: try (match goal with
            | T : take_task _ _ = Some _ |- _ =>
                rewrite (take_task_submitting _ _ _ _ T) in Hrest;
                simpl in Hrest; try discriminate
            end).
  all: try (split; [tauto | assumption]).
Qed.

End Invariants.

Section Reached.

Lemma reachable_form_enabled_at_rest (sys : System) :
  reachable sys -> form_enabled_at_rest sys.
Proof.
  induction 1 as [|sys e sys' _ IH _ S].
  - intros _. reflexivity.
  - exact (step_form_enabled_at_rest e sys sys' S IH).
Qed.

Lemma reachable_outcome_has_result (sys : System) :
  reachable sys -> outcome_has_result (component sys).
Proof.
  induction 1 as [|sys e sys' _ IH _ S].
  - intros [H|H]; discriminate.
  - exact (step_outcome_has_result e sys sys' S IH).
Qed.

Lemma reachable_link_stored_first (sys : System) :
  reachable_in_view sys -> link_stored_first sys.
Proof.
  induction 1 as [|sys e sys' _ IH A S].
  - intros _. split; [now left | reflexivity].
  - exact (step_link_stored_first e sys sys' A S IH).
Qed.

(** A call of [onSubmit] run to its end is a run of events: the call,
    the tokenizer's answer and, when the gateway was asked, its
    answer. *)
Lemma onSubmit_by_events (env : SubmitAnswers) (c : CheckoutComponent) :
  exists events,
    run always events (after c []) = Some (after (onSubmit env c) []).
Proof.
  unfold onSubmit.
  destruct (onSubmit_call c) as [c1 started] eqn:E1.
  destruct started.
  - destruct (onSubmit_tokenized (token_answer env) (uuid_answer env) c1)
      as [c2 called] eqn:E2.
    destruct called.
    + exists [OnSubmit;
              TokenAnswered 0 (token_answer env) (uuid_answer env);
              PaymentAnswered 0 (payment_answer env)].
      simpl. rewrite E1. simpl. rewrite E2. reflexivity.
    + exists [OnSubmit;
              TokenAnswered 0 (token_answer env) (uuid_answer env)].
      simpl. rewrite E1. simpl. rewrite E2. reflexivity.
  - exists [OnSubmit]. simpl. rewrite E1. reflexivity.
Qed.

(** The paths through the [catch] block. *)
Lemma onSubmit_thrown (env : SubmitAnswers) (c : CheckoutComponent) :
  paymentForm_invalid (paymentForm c) = false ->
  token_answer env = TokenRejected
  \/ uuid_answer env = UuidThrown
  \/ paymentLink c = None
  \/ (exists link, paymentLink c = Some link
                   /\ JsString.truthy (id link) = false) ->
  onSubmit env c = onSubmit_catch (fst (onSubmit_call c)).
Proof.
  intros Hv H. rewrite onSubmit_valid by assumption.
  unfold onSubmit_tokenized.
  destruct (token_answer env) as [token|]; [|reflexivity].
  destruct (uuid_answer env) as [key|]; [|reflexivity].
  destruct H as [H|[H|[H|[link [Hl Hid]]]]]; try discriminate;
    unfold onSubmit_call; rewrite Hv; simpl.
  - now rewrite H.
  - rewrite Hl. simpl. now rewrite Hid.
Qed.

End Reached.

(** C2. A call of [onSubmit] on a form that passes validation, run to
    its end, leaves the form enabled and the status COMPLETED, FAILED
    or ERROR_RETRYABLE, whatever the tokenizer, the key generator and
    the gateway answer; when tokenizing or building the request throws
    (the tokenizer rejects, no key, no link, a link without id) the
    status is ERROR_RETRYABLE. And in every state the component reaches,
    under any interleaving of calls and answers, the form is enabled
    unless a submission is still in flight. *)
Theorem C2_form_reenabled :
  (forall (c : CheckoutComponent) (env : SubmitAnswers),
      paymentForm_invalid (paymentForm c) = false ->
      let c' := onSubmit env c in
      disabled (paymentForm c') = false
      /\ (status c' = COMPLETED \/ status c' = FAILED
          \/ status c' = ERROR_RETRYABLE)
      /\ (token_answer env = TokenRejected
          \/ uuid_answer env = UuidThrown
          \/ paymentLink c = None
          \/ (exists link, paymentLink c = Some link
                           /\ JsString.truthy (id link) = false) ->
          status c' = ERROR_RETRYABLE))
  /\ (forall sys : System,
        reachable sys ->
        submitting sys = false ->
        disabled (paymentForm (component sys)) = false).
Proof.
  split.
  - intros c env Hv c'. subst c'. split; [|split].
    + apply onSubmit_leaves_form_enabled.
    + now apply onSubmit_leaves_processing.
    + intros H. now rewrite (onSubmit_thrown env c Hv H).
  - exact reachable_form_enabled_at_rest.
Qed.

Lemma C2_form_reenabled_witness :
  (disabled (paymentForm Sample.declined) = false
   /\ disabled (paymentForm Sample.gateway_down) = false
   /\ disabled (paymentForm Sample.no_link_id) = false
   /\ status Sample.no_link_id = ERROR_RETRYABLE)
  /\ (submitting (Sample.after_events always Sample.pay) = false
      /\ disabled (paymentForm
                     (component (Sample.after_events always Sample.pay)))
         = false).
Proof.
  split; [split; [|split; [|split]]|].
  - apply (proj1 C2_form_reenabled Sample.ready
             (Sample.answers (PaymentNext (Sample.response Payment_FAILED)))).
    vm_compute. reflexivity.
  - apply (proj1 C2_form_reenabled Sample.ready
             (Sample.answers
                (PaymentError (Sample.server_error "Bad gateway")))).
    vm_compute. reflexivity.
  - apply (proj1 C2_form_reenabled
             (Sample.filled "4532015112830366" Checkout.initial)
             (Sample.answers
                (PaymentNext (Sample.response Payment_COMPLETED)))).
    vm_compute. reflexivity.
  - apply (proj1 C2_form_reenabled
             (Sample.filled "4532015112830366" Checkout.initial)
             (Sample.answers
                (PaymentNext (Sample.response Payment_COMPLETED))));
      [vm_compute; reflexivity | right; right; left; reflexivity].
  - split; [vm_compute; reflexivity|].
    apply (proj2 C2_form_reenabled).
    + apply (run_reachable always Sample.pay start);
        [apply reach_start | vm_compute; reflexivity].
    + vm_compute. reflexivity.
Defined.

(** C3 as stated fails. [retry] called in the initial state gives
    READY_TO_PAY with no link loaded; and, with every call made where
    the view offers it, a link opened after a completed payment gives
    READY_TO_PAY with the earlier result still stored. *)
Lemma C3_consistency_counterexample :
  ~ (forall sys, reachable sys -> consistent (component sys))
  /\ ~ (forall sys, reachable_in_view sys -> consistent (component sys)).
Proof.
  split; intros H.
  - assert (R : reachable (Sample.after_events always Sample.early_retry)).
    { apply (run_reachable always Sample.early_retry start);
        [apply reach_start | vm_compute; reflexivity]. }
    destruct (H _ R) as [Hready _].
    destruct (Hready eq_refl) as [Hlink _]. apply Hlink. reflexivity.
  - assert (R : reachable_in_view
                  (Sample.after_events offered Sample.pay_then_open_another)).
    { apply (run_reachable offered Sample.pay_then_open_another start);
        [apply reach_start | vm_compute; reflexivity]. }
    destruct (H _ R) as [Hready _].
    destruct (Hready eq_refl) as [_ Hresult]. vm_compute in Hresult.
    discriminate.
Qed.

(** C3, amended. In every state reached by any sequence of route
    events, calls of [loadLink], [search], [onSubmit] and [retry], and
    answers of the collaborators, COMPLETED and FAILED come with a
    stored result. When [onSubmit] is called only in READY_TO_PAY and
    [retry] only in FAILED and ERROR_RETRYABLE, READY_TO_PAY comes with
    a loaded link. *)
Theorem C3_consistency :
  (forall sys : System,
      reachable sys ->
      status (component sys) = COMPLETED \/ status (component sys) = FAILED ->
      present (paymentResult (component sys)))
  /\ (forall sys : System,
        reachable_in_view sys ->
        status (component sys) = READY_TO_PAY ->
        present (paymentLink (component sys))).
Proof.
  split.
  - exact reachable_outcome_has_result.
  - intros sys R Hready Hnone.
    destruct (reachable_link_stored_first sys R Hnone) as [Hbefore _].
    rewrite Hready in Hbefore.
    destruct Hbefore as [E|[E|[E|E]]]; discriminate.
Qed.

Lemma C3_consistency_witness :
  (status (component (Sample.after_events always Sample.pay)) = COMPLETED
   /\ present (paymentResult
                 (component (Sample.after_events always Sample.pay))))
  /\ (status (component
                (Sample.after_events offered Sample.pay_then_open_another))
      = READY_TO_PAY
      /\ present (paymentLink
                    (component
                       (Sample.after_events offered
                                            Sample.pay_then_open_another)))).
Proof.
  split; (split; [vm_compute; reflexivity|]).
  - apply (proj1 C3_consistency).
    + apply (run_reachable always Sample.pay start);
        [apply reach_start | vm_compute; reflexivity].
    + left. vm_compute. reflexivity.
  - apply (proj2 C3_consistency).
    + apply (run_reachable offered Sample.pay_then_open_another start);
        [apply reach_start | vm_compute; reflexivity].
    + vm_compute. reflexivity.
Defined.

(* ------------------------------------------------------------------ *)
(** ** The card-number field and its formatter *)
(* ------------------------------------------------------------------ *)

Section CardNumber.

Lemma digit_not_space (c : code_unit) :
  is_digit c = true -> is_space c = false.
Proof.
  unfold is_digit, is_space. intros H.
  apply andb_true_iff in H. destruct H as [H1 H2].
  apply N.leb_le in H1, H2.
  rewrite !orb_false_iff, !andb_false_iff, !N.eqb_neq, !N.leb_gt. lia.
Qed.

Lemma remove_spaces_digits (l : jsstring) :
  forallb is_digit l = true -> remove_spaces l = l.
Proof.
  induction l as [|a l IH]; simpl; [reflexivity|].
  intros H. apply andb_true_iff in H. destruct H as [Ha Hl].
  rewrite (digit_not_space a Ha). simpl. now rewrite (IH Hl).
Qed.

Lemma remove_spaces_digit (a : code_unit) (l : jsstring) :
  is_digit a = true -> remove_spaces (a :: l) = a :: remove_spaces l.
Proof.
  intros H. unfold remove_spaces. simpl. now rewrite (digit_not_space a H).
Qed.

Lemma remove_spaces_space (l : jsstring) :
  remove_spaces (space :: l) = remove_spaces l.
Proof. reflexivity. Qed.

Lemma digits_of_input (input : jsstring) (n : nat) :
  forallb is_digit (substring0 n (remove_non_digits input)) = true.
Proof.
  apply forallb_forall. intros c Hc.
  assert (Hin : In c (remove_non_digits input)).
  { rewrite <- (firstn_skipn n (remove_non_digits input)).
    apply in_or_app. now left. }
  unfold remove_non_digits in Hin. apply filter_In in Hin. tauto.
Qed.

(** Lists four elements at a time. *)
Lemma list_ind4 (A : Type) (P : list A -> Prop) :
  P [] -> (forall a, P [a]) -> (forall a b, P [a; b]) ->
  (forall a b c, P [a; b; c]) ->
  (forall a b c d l, P l -> P (a :: b :: c :: d :: l)) ->
  forall l, P l.
Proof.
  intros H0 H1 H2 H3 H4 l.
  assert (H : forall n l, List.length l <= n -> P l).
  { clear l. induction n as [|n IH];
      intros [|a [|b [|c [|d l]]]] Hl; simpl in Hl; auto; try lia.
    apply H4. apply IH. lia. }
  exact (H (List.length l) l (le_n _)).
Qed.

(** Dropping the spaces at the end of a list, one element further. *)
Lemma drop_spaces_last (m : jsstring) (a : code_unit) :
  drop_spaces (m ++ [a])
  = match drop_spaces m with
    | [] => if is_space a then [] else [a]
    | _ => drop_spaces m ++ [a]
    end.
Proof.
  induction m as [|x m IH]; simpl.
  - now destruct (is_space a).
  - destruct (is_space x); [exact IH | reflexivity].
Qed.

Lemma drop_trailing_cons (a : code_unit) (l : jsstring) :
  rev (drop_spaces (rev (a :: l)))
  = match rev (drop_spaces (rev l)) with
    | [] => if is_space a then [] else [a]
    | t => a :: t
    end.
Proof.
  simpl rev at 2. rewrite drop_spaces_last.
  destruct (drop_spaces (rev l)) as [|x m]; simpl.
  - now destruct (is_space a).
  - rewrite rev_app_distr. simpl.
    destruct (rev m ++ [x]) eqn:E; [|reflexivity].
    now destruct (rev m).
Qed.

Lemma drop_trailing_digit (a : code_unit) (l : jsstring) :
  is_digit a = true ->
  rev (drop_spaces (rev (a :: l))) = a :: rev (drop_spaces (rev l)).
Proof.
  intros H. rewrite drop_trailing_cons, (digit_not_space a H).
  now destruct (rev (drop_spaces (rev l))).
Qed.

Lemma trim_digit_first (a : code_unit) (l : jsstring) :
  is_digit a = true ->
  trim (a :: l) = a :: rev (drop_spaces (rev l)).
Proof.
  intros H. unfold trim. simpl drop_spaces.
  rewrite (digit_not_space a H). now apply drop_trailing_digit.
Qed.

(** The first character stays first. *)
Lemma space_after_four_digits_head (a : code_unit) (l : jsstring) :
  exists rest, space_after_four_digits (a :: l) = a :: rest.
Proof.
  destruct l as [|b [|c [|d l]]]; simpl; eauto.
  destruct (is_digit a && is_digit b && is_digit c && is_digit d); eauto.
Qed.

(** Four digits and what follows them. *)
Lemma card_format_step (a b c d : code_unit) (rest : jsstring) :
  is_digit a = true -> is_digit b = true ->
  is_digit c = true -> is_digit d = true ->
  forallb is_digit rest = true ->
  trim (space_after_four_digits (a :: b :: c :: d :: rest))
  = a :: b :: c :: d
      :: match rest with
         | [] => []
         | _ => space :: trim (space_after_four_digits rest)
         end.
Proof.
  intros Ha Hb Hc Hd Hrest. simpl space_after_four_digits.
  rewrite Ha, Hb, Hc, Hd. simpl andb. cbv iota.
  rewrite (trim_digit_first a _ Ha).
  rewrite (drop_trailing_digit b _ Hb), (drop_trailing_digit c _ Hc),
    (drop_trailing_digit d _ Hd).
  do 4 f_equal. rewrite drop_trailing_cons.
  destruct rest as [|x rest]; [reflexivity|].
  simpl in Hrest. apply andb_true_iff in Hrest. destruct Hrest as [Hx _].
  destruct (space_after_four_digits_head x rest) as [tail E].
  rewrite E, (trim_digit_first x _ Hx), (drop_trailing_digit x _ Hx).
  reflexivity.
Qed.

(** The formatted digits: the digits come back when the spaces are
    removed, and [s] spaces were put in, one after each full group of
    four that is not the last. *)
Lemma card_format_digits (l : jsstring) :
  forallb is_digit l = true ->
  remove_spaces (trim (space_after_four_digits l)) = l
  /\ exists s,
      List.length (trim (space_after_four_digits l)) = List.length l + s
      /\ (l = [] -> s = 0)
      /\ (l <> [] -> 4 * s + 1 <= List.length l <= 4 * s + 4).
Proof.
  induction l as [|a|a b|a b c|a b c d l IH] using list_ind4; intros H.
  - split; [reflexivity|]. exists 0. repeat split; congruence.
  - simpl in H. rewrite andb_true_r in H.
    simpl space_after_four_digits. rewrite (trim_digit_first a _ H). simpl.
    rewrite (digit_not_space a H). simpl.
    split; [reflexivity|]. exists 0. repeat split; simpl; lia.
  - simpl in H. rewrite andb_true_r in H.
    apply andb_true_iff in H. destruct H as [Ha Hb].
    simpl space_after_four_digits.
    rewrite (trim_digit_first a _ Ha), (drop_trailing_digit b _ Hb). simpl.
    rewrite (digit_not_space a Ha), (digit_not_space b Hb). simpl.
    split; [reflexivity|]. exists 0. repeat split; simpl; lia.
  - simpl in H. rewrite andb_true_r in H.
    apply andb_true_iff in H. destruct H as [Ha H].
    apply andb_true_iff in H. destruct H as [Hb Hc].
    simpl space_after_four_digits.
    rewrite (trim_digit_first a _ Ha), (drop_trailing_digit b _ Hb),
      (drop_trailing_digit c _ Hc). simpl.
    rewrite (digit_not_space a Ha), (digit_not_space b Hb),
      (digit_not_space c Hc). simpl.
    split; [reflexivity|]. exists 0. repeat split; simpl; lia.
  - simpl in H.
    apply andb_true_iff in H. destruct H as [Ha H].
    apply andb_true_iff in H. destruct H as [Hb H].
    apply andb_true_iff in H. destruct H as [Hc H].
    apply andb_true_iff in H. destruct H as [Hd Hl].
    rewrite (card_format_step a b c d l Ha Hb Hc Hd Hl).
    destruct (IH Hl) as [IHr [s [IHlen [_ IHs]]]].
    rewrite (remove_spaces_digit a _ Ha), (remove_spaces_digit b _ Hb),
      (remove_spaces_digit c _ Hc), (remove_spaces_digit d _ Hd).
    destruct l as [|x l].
    + split; [reflexivity|]. exists 0. repeat split; simpl; lia.
    + rewrite remove_spaces_space, IHr. split; [reflexivity|].
      exists (S s).
      assert (Hne : x :: l <> []) by discriminate.
      specialize (IHs Hne).
      cbn [List.length] in *. rewrite IHlen.
      repeat split; try lia. discriminate.
Qed.

(** What the validators of the card-number field require of a value:
    it is not empty, its length, spaces and all, is between 16 and 19,
    and the Luhn validator accepts it. *)
Lemma cardNumber_fails_spec (v : jsstring) :
  Validators.fails cardNumber_validators (Some v) = false
  <-> v <> [] /\ 16 <= List.length v <= 19 /\ luhnValidator (Some v) = None.
Proof.
  unfold Validators.fails, Validators.errors, cardNumber_validators.
  cbn [flat_map].
  unfold Validators.required, Validators.minLength, Validators.maxLength,
    Validators.isEmptyInputValue.
  destruct v as [|x v].
  - simpl. split; [discriminate | intros [H _]; now elim H].
  - cbn [JsString.truthy negb].
    assert (Hne : x :: v <> []) by discriminate.
    remember (x :: v) as w eqn:Hw. clear Hw.
    destruct (Nat.ltb_spec (List.length w) 16);
      destruct (Nat.ltb_spec 19 (List.length w));
      cbn [app];
      match goal with
      | |- context [luhnValidator ?a] => destruct (luhnValidator a) eqn:L
      end;
      split; try discriminate;
      try (intros [_ [Hlen Hl]]; try discriminate; lia);
      intros _; repeat split; try assumption; lia.
Qed.

End CardNumber.

Section CardNumberForm.

(** The formatter's output passes the validators of the field exactly
    when at least 13 digits were kept and they pass the Luhn check. *)
Lemma card_format_accepted (raw : jsstring) :
  Validators.fails cardNumber_validators (Some (card_number_format raw))
  = false
  <-> 13 <= List.length (substring0 16 (remove_non_digits raw))
      /\ luhnValidator (Some (substring0 16 (remove_non_digits raw))) = None.
Proof.
  rewrite cardNumber_fails_spec. unfold card_number_format.
  set (digits := substring0 16 (remove_non_digits raw)).
  assert (Hd : forallb is_digit digits = true) by apply digits_of_input.
  assert (H16 : List.length digits <= 16) by apply firstn_le_length.
  destruct (card_format_digits digits Hd) as [Hr [s [Hlen [H0 Hs]]]].
  set (formatted := trim (space_after_four_digits digits)) in *.
  assert (Hluhn : digits <> [] ->
                  luhnValidator (Some formatted)
                  = luhnValidator (Some digits)).
  { intros Hne. apply luhnValidator_spaces.
    - now rewrite Hr, (remove_spaces_digits digits Hd).
    - now rewrite Hr. }
  split.
  - intros [Hne [Hbounds Hl]].
    assert (Hdne : digits <> []).
    { intros E. apply Hne. subst formatted. rewrite E. reflexivity. }
    specialize (Hs Hdne). split; [lia|]. now rewrite <- (Hluhn Hdne).
  - intros [H13 Hl].
    assert (Hdne : digits <> []) by (intros E; rewrite E in H13; simpl in H13; lia).
    specialize (Hs Hdne). split; [|split].
    + intros E. rewrite E in Hlen. simpl in Hlen. lia.
    + lia.
    + now rewrite (Hluhn Hdne).
Qed.

End CardNumberForm.

(** C7 as stated fails: the 13 digits 4222222222222 are formatted to 16
    characters, and the form accepts them, although the digits alone do
    not meet the bound of 16 to 19. *)
Lemma C7_thirteen_digits_counterexample :
  let c := formatCardNumber (lit "4222222222222") Sample.ready in
  value (cardNumber (paymentForm c)) = Some (lit "4222 2222 2222 2")
  /\ paymentForm_invalid (paymentForm c) = false
  /\ List.length (remove_non_digits (lit "4222 2222 2222 2")) = 13
  /\ digits_rule (lit "4222 2222 2222 2") = false.
Proof. vm_compute. repeat split. Qed.

(** C7, amended. The validators of the card-number field require a
    value that is not empty, whose length with its spaces is between 16
    and 19, and that passes the Luhn check (which alone works on the
    value without whitespace). For every raw input, the enabled form
    accepts the formatter's output exactly when the digits the
    formatter kept (the first 16 of the input) number at least 13 and
    pass the Luhn check, and the other three fields pass their
    validators. *)
Theorem C7_card_number_validation :
  (forall v : jsstring,
      Validators.fails cardNumber_validators (Some v) = false
      <-> v <> [] /\ 16 <= List.length v <= 19
          /\ luhnValidator (Some v) = None)
  /\ (forall (raw : jsstring) (c : CheckoutComponent),
        disabled (paymentForm c) = false ->
        let digits := substring0 16 (remove_non_digits raw) in
        let f := paymentForm c in
        let f' := paymentForm (formatCardNumber raw c) in
        remove_spaces (card_number_format raw) = digits
        /\ (paymentForm_invalid f' = false
            <-> 13 <= List.length digits
                /\ luhnValidator (Some digits) = None
                /\ Validators.fails expiryDate_validators
                                    (value (expiryDate f)) = false
                /\ Validators.fails cvc_validators (value (cvc f)) = false
                /\ Validators.fails cardHolder_validators
                                    (value (cardHolder f)) = false)).
Proof.
  split; [exact cardNumber_fails_spec|].
  intros raw c Hen digits f f'. split.
  - unfold card_number_format.
    exact (proj1 (card_format_digits digits (digits_of_input raw 16))).
  - subst f f'. unfold paymentForm_invalid. simpl. rewrite Hen.
    rewrite !orb_false_iff, card_format_accepted. fold digits. tauto.
Qed.

Lemma C7_card_number_validation_witness :
  (Validators.fails cardNumber_validators (Some (lit "4532 0151 1283 0366"))
   = false)
  /\ (paymentForm_invalid
        (paymentForm (formatCardNumber (lit "4532015112830366abc")
                                       Sample.ready)) = false)
  /\ (paymentForm_invalid
        (paymentForm (formatCardNumber (lit "4222222222222") Sample.ready))
      = false).
Proof.
  split; [|split].
  - apply (proj1 C7_card_number_validation).
    split; [discriminate|].
    split; [vm_compute; lia | vm_compute; reflexivity].
  - apply (proj2 C7_card_number_validation (lit "4532015112830366abc")
             Sample.ready eq_refl).
    split; [vm_compute; lia | vm_compute; repeat split].
  - apply (proj2 C7_card_number_validation (lit "4222222222222")
             Sample.ready eq_refl).
    split; [vm_compute; lia | vm_compute; repeat split].
Defined.

(* ================================================================== *)
(** * Further properties of the code *)
(* ================================================================== *)

(* ------------------------------------------------------------------ *)
(** ** The Luhn validator as a check on typing errors *)
(* ------------------------------------------------------------------ *)

Section LuhnErrors.

Lemma digit_value_range (c : code_unit) :
  is_digit c = true -> (0 <= digit_value c <= 9)%Z.
Proof.
  unfold is_digit, digit_value. intros H.
  apply andb_true_iff in H. destruct H as [H1 H2].
  apply N.leb_le in H1, H2. lia.
Qed.

Lemma digit_value_inj (a b : code_unit) :
  digit_value a = digit_value b -> a = b.
Proof. unfold digit_value. intros H. apply N2Z.inj. lia. Qed.

Lemma checksum_term_range (position : nat) (c : code_unit) :
  is_digit c = true -> (0 <= checksum_term position c <= 9)%Z.
Proof.
  intros H. pose proof (digit_value_range c H) as R.
  unfold checksum_term. destruct (Nat.odd position); [|exact R].
  destruct (Z.gtb_spec (2 * digit_value c) 9); lia.
Qed.

(** At one position, the term tells the digit. *)
Lemma checksum_term_inj (position : nat) (a b : code_unit) :
  is_digit a = true -> is_digit b = true ->
  checksum_term position a = checksum_term position b -> a = b.
Proof.
  intros Ha Hb. pose proof (digit_value_range a Ha) as Ra.
  pose proof (digit_value_range b Hb) as Rb.
  unfold checksum_term. destruct (Nat.odd position).
  - destruct (Z.gtb_spec (2 * digit_value a) 9);
      destruct (Z.gtb_spec (2 * digit_value b) 9);
      intros E; apply digit_value_inj; lia.
  - apply digit_value_inj.
Qed.

Lemma checksum_from_app (l1 l2 : jsstring) :
  forall position,
    checksum_from position (l1 ++ l2)
    = (checksum_from position l1
       + checksum_from (position + List.length l1) l2)%Z.
Proof.
  induction l1 as [|c l1 IH]; intros position; simpl.
  - now rewrite Nat.add_0_r.
  - rewrite IH. rewrite <- Nat.add_succ_comm. ring.
Qed.

(** The checksum of a number with one digit singled out. *)
Lemma luhn_checksum_split (front back : jsstring) (c : code_unit) :
  luhn_checksum (front ++ c :: back)
  = (checksum_from 0 (rev back)
     + checksum_term (List.length back) c
     + checksum_from (S (List.length back)) (rev front))%Z.
Proof.
  unfold luhn_checksum. rewrite rev_app_distr. simpl rev.
  rewrite <- app_assoc. rewrite checksum_from_app. simpl.
  rewrite length_rev. ring.
Qed.

Lemma same_residue (x y : Z) :
  (0 <= x <= 9)%Z -> (0 <= y <= 9)%Z ->
  forall r : Z, ((r + x) mod 10 = 0)%Z -> ((r + y) mod 10 = 0)%Z -> x = y.
Proof.
  intros Hx Hy r H1 H2.
  pose proof (Z.div_mod (r + x) 10 ltac:(lia)) as D1.
  pose proof (Z.div_mod (r + y) 10 ltac:(lia)) as D2.
  rewrite H1 in D1. rewrite H2 in D2. lia.
Qed.

Lemma digits_valid (s : jsstring) :
  s <> [] -> forallb is_digit s = true ->
  (luhnValidator (Some s) = None <-> (luhn_checksum s mod 10 = 0)%Z).
Proof.
  intros Hne Hd.
  assert (Hs : remove_spaces s = s) by now apply remove_spaces_digits.
  assert (Ha : all_digits (remove_spaces s) = true).
  { rewrite Hs. apply all_digits_spec. now split. }
  rewrite (luhnValidator_digits s Ha), Hs.
  destruct (Z.eqb_spec (luhn_checksum s mod 10) 0); split;
    try tauto; discriminate.
Qed.

(** The validator knows one error. *)
Lemma luhnValidator_error (v : ControlValue) (e : ValidationError) :
  luhnValidator v = Some e -> e = E_luhn.
Proof.
  destruct v as [[|c s]|]; try discriminate.
  unfold luhnValidator.
  destruct (negb (all_digits (remove_spaces (c :: s)))); [congruence|].
  destruct (luhn_loop _ _ _) as [sum|]; [|congruence].
  destruct (sum mod 10 =? 0)%Z; congruence.
Qed.

Lemma single_digit_error (front back : jsstring) (a b : code_unit) :
  forallb is_digit front = true -> forallb is_digit back = true ->
  is_digit a = true -> is_digit b = true ->
  luhnValidator (Some (front ++ a :: back)) = None ->
  luhnValidator (Some (front ++ b :: back)) = None ->
  a = b.
Proof.
  intros Hf Hb Ha Hb' Va Vb.
  assert (Hda : forallb is_digit (front ++ a :: back) = true).
  { rewrite forallb_app. simpl. now rewrite Hf, Ha, Hb. }
  assert (Hdb : forallb is_digit (front ++ b :: back) = true).
  { rewrite forallb_app. simpl. now rewrite Hf, Hb', Hb. }
  apply digits_valid in Va; [|now destruct front|exact Hda].
  apply digits_valid in Vb; [|now destruct front|exact Hdb].
  rewrite luhn_checksum_split in Va, Vb.
  apply (checksum_term_inj (List.length back) a b Ha Hb').
  set (r := (checksum_from 0 (rev back)
             + checksum_from (S (List.length back)) (rev front))%Z) in *.
  apply (same_residue _ _ (checksum_term_range _ a Ha)
                      (checksum_term_range _ b Hb') r).
  - rewrite <- Va. f_equal. subst r. ring.
  - rewrite <- Vb. f_equal. subst r. ring.
Qed.

(** The term of the digit 0 is 0 at every position. *)
Lemma checksum_term_zero (position : nat) :
  checksum_term position zero_digit = 0%Z.
Proof. unfold checksum_term. now destruct (Nat.odd position). Qed.

Lemma luhn_checksum_leading_zero (s : jsstring) :
  luhn_checksum (zero_digit :: s) = luhn_checksum s.
Proof.
  unfold luhn_checksum. simpl rev. rewrite checksum_from_app. simpl.
  rewrite checksum_term_zero. ring.
Qed.

Lemma leading_zero (s : jsstring) :
  s <> [] -> forallb is_digit s = true ->
  luhnValidator (Some (zero_digit :: s)) = luhnValidator (Some s).
Proof.
  intros Hne Hd.
  assert (Hs : remove_spaces s = s) by now apply remove_spaces_digits.
  assert (Hz : remove_spaces (zero_digit :: s) = zero_digit :: s).
  { apply remove_spaces_digits. simpl. exact Hd. }
  assert (E1 := luhnValidator_digits (zero_digit :: s)).
  assert (E2 := luhnValidator_digits s).
  rewrite Hz, luhn_checksum_leading_zero in E1. rewrite Hs in E2.
  rewrite E2 by (apply all_digits_spec; now split).
  apply E1. apply all_digits_spec. split; [discriminate | exact Hd].
Qed.

Lemma zeros_are_digits (n : nat) :
  forallb is_digit (repeat zero_digit n) = true.
Proof. induction n as [|n IH]; [reflexivity | exact IH]. Qed.

Lemma zeros_valid (n : nat) :
  luhnValidator (Some (repeat zero_digit (S n))) = None.
Proof.
  induction n as [|n IH]; [reflexivity|].
  change (repeat zero_digit (S (S n)))
    with (zero_digit :: repeat zero_digit (S n)).
  rewrite leading_zero; [exact IH | discriminate | apply zeros_are_digits].
Qed.

(** The digit that completes a number. *)
Lemma check_digit_exists (front : jsstring) :
  forallb is_digit front = true ->
  exists c, is_digit c = true
            /\ luhnValidator (Some (front ++ [c])) = None.
Proof.
  intros Hf.
  set (r := checksum_from 1 (rev front)).
  set (v := ((- r) mod 10)%Z).
  assert (Hv : (0 <= v < 10)%Z) by (apply Z.mod_pos_bound; lia).
  exists (Z.to_N (48 + v)).
  assert (Hc : is_digit (Z.to_N (48 + v)) = true).
  { unfold is_digit. apply andb_true_iff. split; apply N.leb_le; lia. }
  split; [exact Hc|].
  apply digits_valid.
  - now destruct front.
  - rewrite forallb_app. cbn [forallb]. now rewrite Hf, Hc.
  - rewrite luhn_checksum_split. cbn [rev List.length checksum_from].
    fold r. unfold checksum_term, digit_value.
    change (Nat.odd 0) with false. cbv iota.
    rewrite Z2N.id by lia.
    replace (0 + (48 + v - 48) + r)%Z with (v + r)%Z by ring.
    subst v.
    pose proof (Z.div_mod (- r) 10 ltac:(lia)) as D.
    replace ((- r) mod 10 + r)%Z with ((- ((- r) / 10)) * 10)%Z by lia.
    apply Z.mod_mul. lia.
Qed.

End LuhnErrors.

(** X1. Among strings of digits the validator detects every single
    wrong digit: two numbers that differ in exactly one digit are never
    both accepted. *)
Theorem X1_luhn_detects_single_digit_error :
  forall (front back : jsstring) (a b : code_unit),
    forallb is_digit front = true -> forallb is_digit back = true ->
    is_digit a = true -> is_digit b = true ->
    a <> b ->
    luhnValidator (Some (front ++ a :: back)) = None ->
    luhnValidator (Some (front ++ b :: back)) = Some E_luhn.
Proof.
  intros front back a b Hf Hb Ha Hb' Hne Va.
  destruct (luhnValidator (Some (front ++ b :: back))) as [e|] eqn:Vb.
  - now rewrite (luhnValidator_error _ e Vb).
  - elim Hne. exact (single_digit_error front back a b Hf Hb Ha Hb' Va Vb).
Qed.

Lemma X1_luhn_detects_single_digit_error_witness :
  luhnValidator (Some (lit "4532015112830366")) = None
  /\ luhnValidator (Some (lit "4532015112830066")) = Some E_luhn.
Proof.
  split; [vm_compute; reflexivity|].
  apply (X1_luhn_detects_single_digit_error
           (lit "4532015112830") (lit "66") 51%N 48%N);
    try (vm_compute; reflexivity).
  vm_compute. discriminate.
Defined.

(** X2. Every string of digits has exactly one check digit: one digit
    that, put at its end, gives a number the validator accepts. *)
Theorem X2_luhn_check_digit :
  forall front : jsstring,
    forallb is_digit front = true ->
    exists c, is_digit c = true
              /\ luhnValidator (Some (front ++ [c])) = None
              /\ forall c', is_digit c' = true ->
                            luhnValidator (Some (front ++ [c'])) = None ->
                            c' = c.
Proof.
  intros front Hf.
  destruct (check_digit_exists front Hf) as [c [Hc Vc]].
  exists c. split; [exact Hc|]. split; [exact Vc|].
  intros c' Hc' Vc'.
  exact (single_digit_error front [] c' c Hf eq_refl Hc' Hc Vc' Vc).
Qed.

Lemma X2_luhn_check_digit_witness :
  exists c, is_digit c = true
            /\ luhnValidator (Some (lit "7992739871" ++ [c])) = None
            /\ forall c', is_digit c' = true ->
                          luhnValidator (Some (lit "7992739871" ++ [c']))
                          = None ->
                          c' = c.
Proof.
  apply (X2_luhn_check_digit (lit "7992739871")). vm_compute. reflexivity.
Defined.

(** X3. Zeros in front of a number of digits do not change the verdict,
    and a number made of zeros only is accepted, whatever its length:
    sixteen zeros pass every validator of the card-number field. *)
Theorem X3_luhn_zeros :
  (forall s : jsstring,
      s <> [] -> forallb is_digit s = true ->
      luhnValidator (Some (zero_digit :: s)) = luhnValidator (Some s))
  /\ (forall n : nat,
        luhnValidator (Some (repeat zero_digit (S n))) = None)
  /\ Validators.fails cardNumber_validators
                      (Some (repeat zero_digit 16)) = false.
Proof.
  split; [exact leading_zero|]. split; [exact zeros_valid|].
  vm_compute. reflexivity.
Qed.

Lemma X3_luhn_zeros_witness :
  luhnValidator (Some (lit "079927398713"))
  = luhnValidator (Some (lit "79927398713")).
Proof.
  apply (proj1 X3_luhn_zeros (lit "79927398713"));
    [discriminate | vm_compute; reflexivity].
Defined.

(* ------------------------------------------------------------------ *)
(** ** [trim] and [search] *)
(* ------------------------------------------------------------------ *)

Section Trim.

(** What [drop_spaces] leaves follows a run of whitespace. *)
Lemma drop_spaces_suffix (s : jsstring) :
  exists p, s = p ++ drop_spaces s /\ forallb is_space p = true.
Proof.
  induction s as [|c s [p [E Hp]]]; simpl.
  - now exists [].
  - destruct (is_space c) eqn:Hc.
    + exists (c :: p). simpl. rewrite Hc, Hp. split; [now f_equal | reflexivity].
    + now exists [].
Qed.

Lemma drop_spaces_head (s : jsstring) (c : code_unit) (rest : jsstring) :
  drop_spaces s = c :: rest -> is_space c = false.
Proof.
  induction s as [|x s IH]; simpl; [discriminate|].
  destruct (is_space x) eqn:Hx; [exact IH|].
  intros E. inversion E; subst. exact Hx.
Qed.

Lemma drop_spaces_all (s : jsstring) :
  forallb is_space s = true -> drop_spaces s = [].
Proof.
  induction s as [|x s IH]; simpl; [reflexivity|].
  intros H. apply andb_true_iff in H. destruct H as [Hx Hs].
  rewrite Hx. exact (IH Hs).
Qed.

Lemma drop_spaces_some (s : jsstring) :
  forallb is_space s = false -> drop_spaces s <> [].
Proof.
  induction s as [|x s IH]; simpl; [discriminate|].
  destruct (is_space x); simpl; [exact IH | discriminate].
Qed.

Lemma trim_spaces (s : jsstring) :
  forallb is_space s = true -> trim s = [].
Proof. intros H. unfold trim. now rewrite (drop_spaces_all s H). Qed.

Lemma trim_first (s : jsstring) (c : code_unit) (rest : jsstring) :
  trim s = c :: rest -> is_space c = false.
Proof.
  unfold trim. intros E.
  destruct (drop_spaces_suffix (rev (drop_spaces s))) as [p [Ep _]].
  assert (Eu : drop_spaces s
               = rev (drop_spaces (rev (drop_spaces s))) ++ rev p).
  { rewrite <- rev_app_distr, <- Ep. now rewrite rev_involutive. }
  rewrite E in Eu. simpl in Eu.
  exact (drop_spaces_head s c _ Eu).
Qed.

Lemma trim_last (s : jsstring) (front : jsstring) (c : code_unit) :
  trim s = front ++ [c] -> is_space c = false.
Proof.
  unfold trim. intros E.
  apply (f_equal (@rev code_unit)) in E.
  rewrite rev_involutive, rev_app_distr in E. simpl in E.
  exact (drop_spaces_head _ c _ E).
Qed.

Lemma trim_some (s : jsstring) :
  forallb is_space s = false -> trim s <> [].
Proof.
  intros H. unfold trim. intros E.
  apply (f_equal (@rev code_unit)) in E. rewrite rev_involutive in E.
  simpl in E.
  destruct (drop_spaces s) as [|c u] eqn:Eu.
  - exact (drop_spaces_some s H Eu).
  - pose proof (drop_spaces_head s c u Eu) as Hc.
    simpl in E. rewrite drop_spaces_last, Hc in E.
    destruct (drop_spaces (rev u)); discriminate.
Qed.

(** The search field passes its validators when it holds at least five
    characters. *)
Lemma searchControl_rule (ctl : FormControl) :
  searchControl_invalid ctl = false
  <-> exists v, value ctl = Some v /\ 5 <= List.length v.
Proof.
  unfold searchControl_invalid, Validators.fails, Validators.errors,
    searchControl_validators.
  cbn [flat_map].
  unfold Validators.required, Validators.minLength,
    Validators.isEmptyInputValue.
  destruct (value ctl) as [v|].
  - destruct v as [|x v].
    + simpl. split; [discriminate|]. intros [v [E H]].
      inversion E; subst. simpl in H. lia.
    + cbn [JsString.truthy negb].
      remember (x :: v) as w eqn:Hw. clear Hw.
      destruct (Nat.ltb_spec (List.length w) 5); cbn [app]; split;
        try discriminate.
      * intros [v' [E H']]. inversion E; subst. lia.
      * intros _. now exists w.
      * reflexivity.
  - simpl. split; [discriminate|]. intros [v [E _]]. discriminate.
Qed.

End Trim.

(** X4. [search] on a field of at least five characters: when they are
    all whitespace nothing happens at all (no navigation, and the field
    is not marked either); otherwise the component navigates to the
    trimmed value, which is not empty and neither starts nor ends with
    whitespace, and nothing else changes. *)
Theorem X4_search_navigates_to_trimmed :
  forall (c : CheckoutComponent) (v : jsstring),
    value (searchControl c) = Some v ->
    5 <= List.length v ->
    (forallb is_space v = true -> search c = c)
    /\ (forallb is_space v = false ->
        search c = Signal.call (navigate (trim v)) c
        /\ trim v <> []
        /\ (forall ch rest, trim v = ch :: rest -> is_space ch = false)
        /\ (forall front ch, trim v = front ++ [ch] -> is_space ch = false)).
Proof.
  intros c v Hv Hlen.
  assert (Hvalid : searchControl_invalid (searchControl c) = false).
  { apply searchControl_rule. now exists v. }
  unfold search. rewrite Hvalid, Hv. split.
  - intros Hs. now rewrite (trim_spaces v Hs).
  - intros Hs. pose proof (trim_some v Hs) as Hne.
    split; [now destruct (trim v)|]. split; [exact Hne|].
    split; [exact (trim_first v) | exact (trim_last v)].
Qed.

Lemma X4_search_navigates_to_trimmed_witness :
  search (Run.input SearchField (lit "      ") Checkout.initial)
  = Run.input SearchField (lit "      ") Checkout.initial
  /\ calls (search (Run.input SearchField (lit "  pl_1  ") Checkout.initial))
     = [navigate (lit "pl_1")].
Proof.
  split.
  - apply (X4_search_navigates_to_trimmed
             (Run.input SearchField (lit "      ") Checkout.initial)
             (lit "      ") eq_refl);
      [vm_compute; lia | vm_compute; reflexivity].
  - destruct (X4_search_navigates_to_trimmed
                (Run.input SearchField (lit "  pl_1  ") Checkout.initial)
                (lit "  pl_1  ") eq_refl ltac:(vm_compute; lia))
      as [_ H].
    destruct (H ltac:(vm_compute; reflexivity)) as [E _].
    rewrite E. vm_compute. reflexivity.
Defined.

(* ------------------------------------------------------------------ *)
(** ** The two formatters *)
(* ------------------------------------------------------------------ *)

Section Formatters.

Lemma card_format_short (l : jsstring) :
  List.length l < 4 -> forallb is_digit l = true ->
  trim (space_after_four_digits l) = l.
Proof.
  destruct l as [|a [|b [|c [|d l]]]]; simpl List.length; intros Hl H;
    try lia; try reflexivity; simpl in H;
    repeat (apply andb_true_iff in H; destruct H as [? H]);
    simpl space_after_four_digits;
    rewrite trim_digit_first by assumption;
    rewrite ?drop_trailing_digit by assumption; reflexivity.
Qed.

Lemma card_format_chars (l : jsstring) :
  forallb is_digit l = true ->
  Forall digit_or_space (trim (space_after_four_digits l)).
Proof.
  assert (Hshort : forall l, List.length l < 4 ->
                             forallb is_digit l = true ->
                             Forall digit_or_space
                                    (trim (space_after_four_digits l))).
  { intros l0 Hl Hd. rewrite (card_format_short l0 Hl Hd).
    apply Forall_forall. intros c Hc. left.
    rewrite forallb_forall in Hd. now apply Hd. }
  induction l as [|a|a b|a b c|a b c d l IH] using list_ind4; intros H;
    try (apply Hshort; [simpl; lia | exact H]).
  simpl in H.
  apply andb_true_iff in H. destruct H as [Ha H].
  apply andb_true_iff in H. destruct H as [Hb H].
  apply andb_true_iff in H. destruct H as [Hc H].
  apply andb_true_iff in H. destruct H as [Hd Hl].
  rewrite (card_format_step a b c d l Ha Hb Hc Hd Hl).
  repeat (constructor; [now left|]).
  destruct l as [|x l]; [constructor|].
  constructor; [now right | exact (IH Hl)].
Qed.

(** On the formatter's output, the digits are what is not whitespace. *)
Lemma card_format_non_digits (l : jsstring) :
  forallb is_digit l = true ->
  remove_non_digits (trim (space_after_four_digits l)) = l.
Proof.
  intros H.
  rewrite <- (proj1 (card_format_digits l H)) at 2.
  unfold remove_non_digits, remove_spaces. apply filter_ext_in.
  intros c Hc.
  pose proof (card_format_chars l H) as Hall.
  rewrite Forall_forall in Hall.
  destruct (Hall c Hc) as [Hd|Hs].
  - now rewrite Hd, (digit_not_space c Hd).
  - subst c. reflexivity.
Qed.

Lemma card_format_length (l : jsstring) :
  forallb is_digit l = true -> List.length l <= 16 ->
  List.length (trim (space_after_four_digits l)) <= 19.
Proof.
  intros H Hl.
  destruct (card_format_digits l H) as [_ [s [Hlen [H0 Hs]]]].
  destruct l as [|x l].
  - rewrite Hlen, H0 by reflexivity. simpl. lia.
  - assert (Hne : x :: l <> []) by discriminate.
    specialize (Hs Hne). lia.
Qed.

Lemma filter_digits_id (l : jsstring) :
  forallb is_digit l = true -> remove_non_digits l = l.
Proof. apply forallb_filter_id. Qed.

Lemma expiry_format_digits (raw : jsstring) :
  remove_non_digits (expiry_date_format raw)
  = substring0 4 (remove_non_digits raw).
Proof.
  unfold expiry_date_format.
  set (digits := substring0 4 (remove_non_digits raw)).
  assert (Hd : forallb is_digit digits = true) by apply digits_of_input.
  destruct (2 <? List.length digits).
  - unfold remove_non_digits. rewrite !filter_app.
    change (filter is_digit [Checkout.space; slash; Checkout.space])
      with (@nil code_unit).
    rewrite app_nil_l, <- filter_app, firstn_skipn.
    now apply filter_digits_id.
  - now apply filter_digits_id.
Qed.

(** The expiry field passes its validators when its value matches the
    pattern. *)
Lemma expiryDate_rule (v : jsstring) :
  Validators.fails expiryDate_validators (Some v) = false
  <-> expiry_pattern v = true.
Proof.
  unfold Validators.fails, Validators.errors, expiryDate_validators.
  cbn [flat_map].
  unfold Validators.required, Validators.pattern,
    Validators.isEmptyInputValue.
  destruct v as [|x v]; [simpl; split; discriminate|].
  cbn [JsString.truthy negb].
  destruct (expiry_pattern (x :: v)); cbn [app]; split;
    try discriminate; reflexivity.
Qed.

Lemma cvc_rule (v : jsstring) :
  Validators.fails cvc_validators (Some v) = false
  <-> (List.length v = 3 \/ List.length v = 4)
      /\ forallb is_digit v = true.
Proof.
  unfold Validators.fails, Validators.errors, cvc_validators.
  cbn [flat_map].
  unfold Validators.required, Validators.minLength, Validators.maxLength,
    Validators.pattern, Validators.isEmptyInputValue.
  destruct v as [|x v].
  - simpl. split; [discriminate|]. intros [[H|H] _]; discriminate.
  - cbn [JsString.truthy negb].
    change (all_digits (x :: v)) with (forallb is_digit (x :: v)).
    remember (x :: v) as w eqn:Hw. clear Hw.
    destruct (Nat.ltb_spec (List.length w) 3);
      destruct (Nat.ltb_spec 4 (List.length w));
      destruct (forallb is_digit w); cbn [app]; split;
      try discriminate; try (intros [Hlen Hp]; try discriminate; lia);
      intros _; split; try reflexivity; lia.
Qed.

Lemma cardHolder_rule (v : jsstring) :
  Validators.fails cardHolder_validators (Some v) = false
  <-> 3 <= List.length v.
Proof.
  unfold Validators.fails, Validators.errors, cardHolder_validators.
  cbn [flat_map].
  unfold Validators.required, Validators.minLength,
    Validators.isEmptyInputValue.
  destruct v as [|x v].
  - simpl. split; [discriminate | lia].
  - cbn [JsString.truthy negb].
    remember (x :: v) as w eqn:Hw. clear Hw.
    destruct (Nat.ltb_spec (List.length w) 3); cbn [app]; split;
      try discriminate; try lia; reflexivity.
Qed.

End Formatters.

(** X5. The card-number formatter is idempotent: formatting what it put
    out gives the same string again. *)
Theorem X5_card_number_format_idempotent :
  forall raw : jsstring,
    card_number_format (card_number_format raw) = card_number_format raw.
Proof.
  intros raw. unfold card_number_format at 1.
  unfold card_number_format.
  set (digits := substring0 16 (remove_non_digits raw)).
  assert (Hd : forallb is_digit digits = true) by apply digits_of_input.
  rewrite (card_format_non_digits digits Hd).
  unfold substring0 at 1. rewrite firstn_all2; [reflexivity|].
  apply firstn_le_length.
Qed.

(** X6. Whatever is typed, the card-number formatter puts out at most
    19 characters, digits and spaces only, beginning and ending with a
    digit; its digits are the first 16 digits of the input, in
    order; and [maxLength(19)] never reports on it. *)
Theorem X6_card_number_format_shape :
  forall raw : jsstring,
    let out := card_number_format raw in
    List.length out <= 19
    /\ Forall digit_or_space out
    /\ remove_non_digits out = substring0 16 (remove_non_digits raw)
    /\ (forall ch rest, out = ch :: rest -> is_digit ch = true)
    /\ (forall front ch, out = front ++ [ch] -> is_digit ch = true)
    /\ Validators.maxLength 19 (Some out) = None.
Proof.
  intros raw out. subst out. unfold card_number_format.
  set (digits := substring0 16 (remove_non_digits raw)).
  assert (Hd : forallb is_digit digits = true) by apply digits_of_input.
  assert (H16 : List.length digits <= 16) by apply firstn_le_length.
  pose proof (card_format_length digits Hd H16) as Hlen.
  pose proof (card_format_chars digits Hd) as Hall.
  split; [exact Hlen|]. split; [exact Hall|].
  split; [exact (card_format_non_digits digits Hd)|].
  rewrite Forall_forall in Hall.
  split; [|split].
  - intros ch rest E.
    destruct (Hall ch) as [H|H]; [rewrite E; now left | exact H |].
    pose proof (trim_first _ ch rest E) as Hs. now subst ch.
  - intros front ch E.
    destruct (Hall ch) as [H|H];
      [rewrite E; apply in_or_app; right; now left | exact H |].
    pose proof (trim_last _ front ch E) as Hs. now subst ch.
  - unfold Validators.maxLength.
    destruct (Nat.ltb_spec 19
                (List.length (trim (space_after_four_digits digits))));
      [lia | reflexivity].
Qed.

Lemma X6_card_number_format_shape_witness :
  is_digit 52%N = true /\ is_digit 54%N = true.
Proof.
  destruct (X6_card_number_format_shape (lit "4532015112830366abc"))
    as [_ [_ [_ [Hfirst [Hlast _]]]]].
  split.
  - apply (Hfirst 52%N (lit "532 0151 1283 0366")). reflexivity.
  - apply (Hlast (lit "4532 0151 1283 036") 54%N). reflexivity.
Defined.

(** X7. The expiry formatter is idempotent, and the digits of its output
    are the first four digits of the input. *)
Theorem X7_expiry_date_format_idempotent :
  forall raw : jsstring,
    expiry_date_format (expiry_date_format raw) = expiry_date_format raw
    /\ remove_non_digits (expiry_date_format raw)
       = substring0 4 (remove_non_digits raw).
Proof.
  intros raw. split; [|apply expiry_format_digits].
  unfold expiry_date_format at 1. rewrite expiry_format_digits.
  assert (E : substring0 4 (substring0 4 (remove_non_digits raw))
              = substring0 4 (remove_non_digits raw)).
  { unfold substring0 at 1. apply firstn_all2. apply firstn_le_length. }
  rewrite E. reflexivity.
Qed.

(** X8. The expiry field accepts the formatter's output exactly when the
    input has at least four digits and the first four are a month from
    01 to 12 followed by a year from 20 to 99; with fewer than four
    digits the output is never accepted. *)
Theorem X8_expiry_date_format_accepted :
  forall raw : jsstring,
    Validators.fails expiryDate_validators
                     (Some (expiry_date_format raw)) = false
    <-> exists a b c d,
        substring0 4 (remove_non_digits raw) = [a; b; c; d]
        /\ month_pattern a b = true /\ year_pattern c d = true.
Proof.
  intros raw. rewrite expiryDate_rule. unfold expiry_date_format.
  set (digits := substring0 4 (remove_non_digits raw)).
  assert (H4 : List.length digits <= 4) by apply firstn_le_length.
  assert (Hd : forallb is_digit digits = true) by apply digits_of_input.
  clearbody digits.
  destruct digits as [|a [|b [|c [|d [|e l]]]]];
    try (simpl in H4; lia).
  - simpl. split; [discriminate|]. intros [a [b [c [d [E _]]]]].
    discriminate.
  - simpl. split; [discriminate|]. intros [a' [b [c [d [E _]]]]].
    discriminate.
  - simpl. split; [discriminate|]. intros [a' [b' [c [d [E _]]]]].
    discriminate.
  - cbn [List.length Nat.ltb Nat.leb firstn skipn app].
    unfold expiry_pattern.
    replace (year_pattern Checkout.space c) with false
      by (unfold year_pattern; reflexivity).
    rewrite andb_false_r.
    split; [discriminate|]. intros [a' [b' [c' [d [E _]]]]].
    discriminate.
  - cbn [List.length Nat.ltb Nat.leb firstn skipn app].
    unfold expiry_pattern.
    change (is_space Checkout.space) with true.
    change ((slash =? slash)%N) with true.
    rewrite !andb_true_r. split.
    + intros H. apply andb_true_iff in H. destruct H as [Hm Hy].
      now exists a, b, c, d.
    + intros [a' [b' [c' [d' [E [Hm Hy]]]]]]. inversion E; subst.
      now rewrite Hm, Hy.
Qed.

Lemma X8_expiry_date_format_accepted_witness :
  Validators.fails expiryDate_validators
                   (Some (expiry_date_format (lit "1225"))) = false.
Proof.
  apply (proj2 (X8_expiry_date_format_accepted (lit "1225"))).
  exists 49%N, 50%N, 50%N, 53%N. repeat split.
Defined.

(** X9. What the fields accept. CVC: exactly three or four digits. Card
    holder: any three characters or more, whitespace included. Expiry:
    what matches the pattern. An enabled form whose four fields hold
    strings is not invalid exactly when each field meets its rule. *)
Theorem X9_field_rules :
  (forall v, Validators.fails cvc_validators (Some v) = false
             <-> (List.length v = 3 \/ List.length v = 4)
                 /\ forallb is_digit v = true)
  /\ (forall v, Validators.fails cardHolder_validators (Some v) = false
                <-> 3 <= List.length v)
  /\ (forall v, Validators.fails expiryDate_validators (Some v) = false
                <-> expiry_pattern v = true)
  /\ (forall (f : PaymentForm) (number expiry code holder : jsstring),
        disabled f = false ->
        value (cardNumber f) = Some number ->
        value (expiryDate f) = Some expiry ->
        value (cvc f) = Some code ->
        value (cardHolder f) = Some holder ->
        (paymentForm_invalid f = false
         <-> (16 <= List.length number <= 19
              /\ luhnValidator (Some number) = None)
             /\ expiry_pattern expiry = true
             /\ ((List.length code = 3 \/ List.length code = 4)
                 /\ forallb is_digit code = true)
             /\ 3 <= List.length holder)).
Proof.
  split; [exact cvc_rule|]. split; [exact cardHolder_rule|].
  split; [exact expiryDate_rule|].
  intros f number expiry code holder Hen Hn He Hc Hh.
  unfold paymentForm_invalid. rewrite Hen, Hn, He, Hc, Hh.
  rewrite !orb_false_iff, cardNumber_fails_spec, expiryDate_rule,
    cvc_rule, cardHolder_rule.
  split.
  - intros [[[[_ [Hb Hl]] Hx] Hv] Hd]. tauto.
  - intros [[Hb Hl] [Hx [Hv Hd]]].
    repeat split; try tauto.
    intros E. subst number. simpl in Hb. lia.
Qed.

Lemma X9_field_rules_witness :
  Validators.fails cardHolder_validators (Some (lit "   ")) = false
  /\ paymentForm_invalid (paymentForm Sample.ready) = false.
Proof.
  split.
  - apply (proj1 (proj2 X9_field_rules)). simpl. lia.
  - apply (proj2 (proj2 (proj2 X9_field_rules))
             (paymentForm Sample.ready)
             (lit "4532015112830366") (lit "12 / 25") (lit "123")
             initial_cardHolder eq_refl eq_refl eq_refl eq_refl eq_refl).
    split; [split; [vm_compute; lia | vm_compute; reflexivity]|].
    split; [vm_compute; reflexivity|].
    split; [split; [left; reflexivity | reflexivity]|].
    vm_compute. lia.
Defined.

(* ------------------------------------------------------------------ *)
(** ** More invariants of the running component *)
(* ------------------------------------------------------------------ *)

Section Watching.


Lemma take_task_count (f : Task -> bool) (tasks : list Task) :
  forall n t rest,
    take_task n tasks = Some (t, rest) ->
    count f tasks = (if f t then 1 else 0) + count f rest.
Proof.
  unfold count.
  induction tasks as [|t0 tasks IH]; intros n t rest H; simpl in H.
  - discriminate.
  - destruct n as [|n].
    + inversion H; subst. simpl. now destruct (f t).
    + destruct (take_task n tasks) as [[t' rest']|] eqn:E; [|discriminate].
      inversion H; subst. simpl. pose proof (IH n t rest' E) as IHn.
      destruct (f t0), (f t); simpl; lia.
Qed.

Lemma count_added (A : Type) (f : A -> bool) (l : list A) (x : A) :
  count f (l ++ [x]) = count f l + (if f x then 1 else 0).
Proof.
  unfold count. rewrite filter_app, length_app. simpl.
  now destruct (f x).
Qed.

Ltac break_hyp :=
  match goal with
  | H : context [match ?x with _ => _ end] |- _ => destruct x eqn:?
  end.

(** One event, branch by branch. *)
Ltac open_event H :=
  unfold step, route_params, search, onSubmit_call, onSubmit_tokenized,
    onSubmit_answer, loadLink_answer, Run.input in H;
  simpl in H;
  repeat (break_hyp; simpl in H; try discriminate);
  inversion H; subst; clear H;
  repeat match goal with
         | P : (_, _) = (_, _) |- _ => inversion P; subst; clear P
         end;
  simpl in *.


Lemma step_message_with_status (e : Event) (sys sys' : System) :
  step e sys = Some sys' ->
  message_with_status (component sys) ->
  message_with_status (component sys').
Proof.
  destruct sys as [c tasks]. unfold message_with_status, present. simpl.
  intros H [I1 I2].
  destruct e; open_event H;
    (split; intros Hst; try discriminate; try reflexivity; auto).
Qed.

Lemma step_paymentLink (e : Event) (sys sys' : System) :
  step e sys = Some sys' ->
  (stores_link e = false ->
   paymentLink (component sys') = paymentLink (component sys))
  /\ (present (paymentLink (component sys)) ->
      present (paymentLink (component sys'))).
Proof.
  destruct sys as [c tasks]. unfold present. simpl. intros H.
  destruct e; open_event H; split; intros Hs; try reflexivity;
    try assumption; try discriminate.
Qed.

Lemma step_card_data (e : Event) (sys sys' : System) :
  step e sys = Some sys' ->
  writes_field e = false ->
  card_data (component sys') = card_data (component sys).
Proof.
  destruct sys as [c tasks]. unfold card_data. simpl. intros H W.
  destruct e; try discriminate; open_event H; reflexivity.
Qed.

Lemma step_well_formed_calls (e : Event) (sys sys' : System) :
  step e sys = Some sys' ->
  Forall well_formed_call (calls (component sys)) ->
  Forall well_formed_call (calls (component sys')).
Proof.
  destruct sys as [c tasks]. simpl. intros H Inv.
  destruct e; open_event H; try assumption;
    apply Forall_app; (split; [assumption|]);
    constructor; try constructor; simpl; auto.
Qed.

Lemma step_tokens_before_payments (e : Event) (sys sys' : System) :
  step e sys = Some sys' ->
  tokens_before_payments sys -> tokens_before_payments sys'.
Proof.
  destruct sys as [c tasks]. unfold tokens_before_payments. simpl.
  intros H Inv.
  destruct e; open_event H;
    try match goal with
        | T : take_task _ _ = Some _ |- _ =>
            rewrite (take_task_count is_token_task _ _ _ _ T) in Inv;
            simpl in Inv
        end;
    rewrite ?count_added; simpl; try lia.
Qed.

Lemma reachable_invariant (P : System -> Prop) :
  P start ->
  (forall e sys sys', step e sys = Some sys' -> P sys -> P sys') ->
  forall sys, reachable sys -> P sys.
Proof.
  intros H0 Hstep sys R.
  induction R as [|sys e sys' _ IH _ S]; [exact H0|].
  exact (Hstep e sys sys' S IH).
Qed.

End Watching.



(** X11. In every state the component reaches, ERROR_RETRYABLE comes
    with an error message and PROCESSING_PAYMENT comes with none. *)
Theorem X11_error_message_with_status :
  forall sys : System,
    reachable sys ->
    (status (component sys) = ERROR_RETRYABLE ->
     present (errorMessage (component sys)))
    /\ (status (component sys) = PROCESSING_PAYMENT ->
        errorMessage (component sys) = None).
Proof.
  intros sys R.
  apply (reachable_invariant (fun sys => message_with_status (component sys)));
    [|exact step_message_with_status|exact R].
  split; discriminate.
Qed.

Lemma X11_error_message_with_status_witness :
  errorMessage (component (Sample.after_events always Sample.submit_only))
  = None.
Proof.
  apply (proj2 (X11_error_message_with_status
                  (Sample.after_events always Sample.submit_only)
                  (run_reachable always Sample.submit_only start _
                     (reach_start always) eq_refl))).
  vm_compute. reflexivity.
Defined.

(** X12. Only the answer of a lookup that found a link writes the stored
    link: over any run of events without such an answer the link and the
    derived total stay what they were, and over any run at all a link
    that is stored stays stored (nothing ever clears it). *)
Theorem X12_only_lookup_writes_link :
  forall (events : list Event) (sys sys' : System),
    run always events sys = Some sys' ->
    (existsb stores_link events = false ->
     paymentLink (component sys') = paymentLink (component sys)
     /\ totalAmount (component sys') = totalAmount (component sys))
    /\ (present (paymentLink (component sys)) ->
        present (paymentLink (component sys'))).
Proof.
  induction events as [|e events IH]; intros sys sys' H; simpl in H.
  - inversion H; subst. repeat split. tauto.
  - destruct (step e sys) as [sys1|] eqn:S; [|discriminate].
    destruct (step_paymentLink e sys sys1 S) as [Hkeep Hmono].
    destruct (IH sys1 sys' H) as [IHkeep IHmono].
    split.
    + simpl. intros Hn. apply orb_false_iff in Hn. destruct Hn as [He Hes].
      destruct (IHkeep Hes) as [E1 E2].
      assert (E : paymentLink (component sys')
                  = paymentLink (component sys))
        by (rewrite E1; exact (Hkeep He)).
      split; [exact E|]. unfold totalAmount. now rewrite E.
    + intros Hp. exact (IHmono (Hmono Hp)).
Qed.

Lemma X12_only_lookup_writes_link_witness :
  present (paymentLink
             (component
                (Sample.after_events always Sample.pay_then_open_another))).
Proof.
  apply (proj2 (X12_only_lookup_writes_link
                  (skipn 2 Sample.pay_then_open_another)
                  (Sample.after_events always
                     (firstn 2 Sample.pay_then_open_another))
                  (Sample.after_events always Sample.pay_then_open_another)
                  ltac:(vm_compute; reflexivity))).
  vm_compute. discriminate.
Defined.

(** X13. [onSubmit] does not itself refuse a second call while a
    submission is in flight: a disabled form is not invalid, so the call
    asks for a token whatever the fields hold. Two calls in a row on a
    valid form, each followed by its token, put two payment requests for
    the same link in flight at once, each with its own token and key. *)
Theorem X13_second_submission_not_refused :
  (forall c : CheckoutComponent,
      disabled (paymentForm c) = true ->
      snd (onSubmit_call c) = true
      /\ calls (fst (onSubmit_call c)) = calls c ++ [createToken STRIPE])
  /\ (forall (c : CheckoutComponent) (link : PaymentLinkWithPreviewResponse)
             (token1 key1 token2 key2 : jsstring),
        paymentForm_invalid (paymentForm c) = false ->
        paymentLink c = Some link ->
        JsString.truthy (id link) = true ->
        let request token key :=
          {| cardToken := token; pspProvider := STRIPE;
             idempotencyKey := key;
             metadata_cardHolder := value (cardHolder (paymentForm c)) |} in
        exists sys',
          run always
              [OnSubmit; OnSubmit;
               TokenAnswered 0 (TokenResolved token1) (UuidReturned key1);
               TokenAnswered 0 (TokenResolved token2) (UuidReturned key2)]
              (after c []) = Some sys'
          /\ pending sys' = [PaymentTask; PaymentTask]
          /\ calls (component sys')
             = calls c ++ [createToken STRIPE; createToken STRIPE;
                           processPayment (id link) (request token1 key1);
                           processPayment (id link) (request token2 key2)]).
Proof.
  split.
  - intros c H. unfold onSubmit_call, paymentForm_invalid. rewrite H.
    split; reflexivity.
  - intros c link token1 key1 token2 key2 Hv Hl Hid request.
    eexists. split; [|split].
    + unfold run, always, step, onSubmit_call. simpl. rewrite Hv. simpl.
      unfold onSubmit_tokenized. simpl.
      rewrite Hl. simpl. rewrite Hid. simpl.
      rewrite Hl. simpl. rewrite Hid. simpl. reflexivity.
    + reflexivity.
    + simpl. rewrite <- !app_assoc. reflexivity.
Qed.

Lemma X13_second_submission_not_refused_witness :
  exists sys',
    run always
        [OnSubmit; OnSubmit;
         TokenAnswered 0 (TokenResolved (lit "tok_a")) (UuidReturned (lit "k1"));
         TokenAnswered 0 (TokenResolved (lit "tok_b")) (UuidReturned (lit "k2"))]
        (after Sample.ready []) = Some sys'
    /\ pending sys' = [PaymentTask; PaymentTask].
Proof.
  destruct (proj2 X13_second_submission_not_refused Sample.ready
              (Sample.link "link123" (of_Z 100) (decimal 55 1))
              (lit "tok_a") (lit "k1") (lit "tok_b") (lit "k2")
              ltac:(vm_compute; reflexivity) eq_refl eq_refl)
    as [sys' [Hrun [Hpending _]]].
  exists sys'. split; [exact Hrun | exact Hpending].
Defined.

(** X14. Every call the component has made is well formed: tokens are
    asked of STRIPE only, a payment request always goes to a link id
    that is not empty and names STRIPE, and navigation goes to an id
    that is not empty. And a payment is requested only after a token:
    the payment requests never outnumber the token requests. *)
Theorem X14_calls_well_formed :
  forall sys : System,
    reachable sys ->
    Forall well_formed_call (calls (component sys))
    /\ count is_processPayment (calls (component sys))
       <= count is_createToken (calls (component sys)).
Proof.
  intros sys R. split.
  - apply (reachable_invariant
             (fun sys => Forall well_formed_call (calls (component sys))));
      [constructor | exact step_well_formed_calls | exact R].
  - assert (T : tokens_before_payments sys).
    { apply (reachable_invariant tokens_before_payments);
        [|exact step_tokens_before_payments|exact R].
      unfold tokens_before_payments. simpl. unfold count. simpl. lia. }
    unfold tokens_before_payments in T. lia.
Qed.

Lemma X14_calls_well_formed_witness :
  Forall well_formed_call
         (calls (component (Sample.after_events always Sample.pay))).
Proof.
  apply (proj1 (X14_calls_well_formed
                  (Sample.after_events always Sample.pay)
                  (run_reachable always Sample.pay start _
                     (reach_start always)
                     ltac:(vm_compute; reflexivity)))).
Defined.

(** X15. Submitting and then retrying brings the component back: from
    READY_TO_PAY with no result, no error message and a valid, enabled
    form, [retry] after a finished [onSubmit] restores every signal and
    both forms, whatever the collaborators answered; only the calls made
    remain. *)
Theorem X15_retry_undoes_submit :
  forall (c : CheckoutComponent) (env : SubmitAnswers),
    status c = READY_TO_PAY ->
    paymentResult c = None ->
    errorMessage c = None ->
    disabled (paymentForm c) = false ->
    paymentForm_invalid (paymentForm c) = false ->
    let c' := retry (onSubmit env c) in
    status c' = status c
    /\ paymentLink c' = paymentLink c
    /\ paymentResult c' = paymentResult c
    /\ errorMessage c' = errorMessage c
    /\ paymentForm c' = paymentForm c
    /\ searchControl c' = searchControl c.
Proof.
  intros c env Hs Hr He Hd Hv c'. subst c'.
  rewrite (onSubmit_valid env c Hv).
  unfold onSubmit_call. rewrite Hv. unfold onSubmit_tokenized.
  destruct c as [st link result message form search_ctl made].
  destruct form as [cn ex cv ch dis].
  simpl in Hs, Hr, He, Hd. subst st result message dis.
  destruct (token_answer env); [|simpl; repeat split].
  destruct (uuid_answer env); [|simpl; repeat split].
  simpl. destruct link as [link|]; [|simpl; repeat split]. simpl.
  destruct (JsString.truthy (id link)); [|simpl; repeat split].
  destruct (payment_answer env) as [response|err]; simpl.
  - destruct (payment_status response); simpl; repeat split.
  - repeat split.
Qed.

Lemma X15_retry_undoes_submit_witness :
  paymentForm (retry Sample.declined) = paymentForm Sample.ready
  /\ status (retry Sample.gateway_down) = status Sample.ready.
Proof.
  split.
  - apply (X15_retry_undoes_submit Sample.ready
             (Sample.answers (PaymentNext (Sample.response Payment_FAILED))));
      vm_compute; reflexivity.
  - apply (X15_retry_undoes_submit Sample.ready
             (Sample.answers
                (PaymentError (Sample.server_error "Bad gateway"))));
      vm_compute; reflexivity.
Defined.

(** X16. The component never clears what was typed into the payment
    form: over any run of events other than typing and formatting, and
    over any finished [onSubmit], the values of the card number, expiry,
    CVC and card holder fields stay what they were, also after a
    completed payment. *)
Theorem X16_card_data_never_cleared :
  (forall (events : list Event) (sys sys' : System),
      run always events sys = Some sys' ->
      existsb writes_field events = false ->
      card_data (component sys') = card_data (component sys))
  /\ (forall (env : SubmitAnswers) (c : CheckoutComponent),
        card_data (onSubmit env c) = card_data c).
Proof.
  split.
  - induction events as [|e events IH]; intros sys sys' H W; simpl in H.
    + now inversion H.
    + destruct (step e sys) as [sys1|] eqn:S; [|discriminate].
      simpl in W. apply orb_false_iff in W. destruct W as [We Wes].
      rewrite (IH sys1 sys' H Wes).
      exact (step_card_data e sys sys1 S We).
  - intros env c. unfold onSubmit, onSubmit_call.
    destruct (paymentForm_invalid (paymentForm c)); [reflexivity|].
    unfold onSubmit_tokenized.
    destruct (token_answer env); [|reflexivity].
    destruct (uuid_answer env); [|reflexivity].
    simpl. destruct (paymentLink c) as [link|]; [|reflexivity]. simpl.
    destruct (JsString.truthy (id link)); [|reflexivity].
    unfold onSubmit_answer.
    destruct (payment_answer env) as [response|err];
      [destruct (payment_status response)|]; reflexivity.
Qed.

Lemma X16_card_data_never_cleared_witness :
  status (component (Sample.after_events always Sample.pay)) = COMPLETED
  /\ card_data (component (Sample.after_events always Sample.pay))
     = (Some (lit "4532015112830366"), Some (lit "12 / 25"),
        Some (lit "123"), Some initial_cardHolder).
Proof.
  split; [vm_compute; reflexivity|].
  rewrite (proj1 X16_card_data_never_cleared
             (skipn 5 Sample.pay)
             (Sample.after_events always (firstn 5 Sample.pay))
             (Sample.after_events always Sample.pay)
             ltac:(vm_compute; reflexivity)
             ltac:(vm_compute; reflexivity)).
  vm_compute. reflexivity.
Defined.

(* ------------------------------------------------------------------ *)
(** ** The tokenizer stub, the gateway's addresses, the fee panel *)
(* ------------------------------------------------------------------ *)

(** X17. A token is [tok_mock_], the provider in lower case, an
    underscore and the UUID; the provider and the UUID can be read back
    from it, so two tokens are equal only when both are. *)
Theorem X17_token_tells_provider_and_uuid :
  forall (psp psp' : PspProvider) (uuid uuid' : jsstring),
    MockPspSdkService.createToken psp uuid
    = MockPspSdkService.createToken psp' uuid' ->
    psp = psp' /\ uuid = uuid'.
Proof.
  intros psp psp' uuid uuid'. unfold MockPspSdkService.createToken.
  intros H. apply app_inv_head in H.
  destruct psp, psp'; simpl in H.
  - split; [reflexivity|]. now inversion H.
  - discriminate.
  - discriminate.
  - split; [reflexivity|]. now inversion H.
Qed.

Lemma X17_token_tells_provider_and_uuid_witness :
  STRIPE = STRIPE /\ lit "1b4e28ba" = lit "1b4e28ba".
Proof.
  apply (X17_token_tells_provider_and_uuid STRIPE STRIPE
           (lit "1b4e28ba") (lit "1b4e28ba")).
  reflexivity.
Defined.

(** X18. The gateway is asked at [baseUrl/payment-links/<id>] for a link
    and at that address followed by [/payments] for a payment; the id is
    put into the address as it is, so distinct ids give distinct
    addresses, and the payment address of an id is the lookup address of
    that id followed by [/payments]. *)
Theorem X18_api_addresses :
  (forall id1 id2 : jsstring,
      ApiService.getPaymentLink id1 = ApiService.getPaymentLink id2 ->
      id1 = id2)
  /\ (forall (id1 id2 : jsstring) (r1 r2 : ProcessPaymentRequest),
        ApiService.processPayment id1 r1 = ApiService.processPayment id2 r2 ->
        id1 = id2 /\ r1 = r2)
  /\ (forall (link_id : jsstring) (r : ProcessPaymentRequest),
        ApiService.url (ApiService.processPayment link_id r)
        = ApiService.url (ApiService.getPaymentLink link_id)
            ++ lit "/payments")
  /\ (forall (link_id : jsstring) (r : ProcessPaymentRequest),
        ApiService.url (ApiService.processPayment link_id r)
        = ApiService.url
            (ApiService.getPaymentLink (link_id ++ lit "/payments"))).
Proof.
  unfold ApiService.getPaymentLink, ApiService.processPayment.
  split; [|split; [|split]].
  - intros id1 id2 H.
    assert (E : ApiService.baseUrl ++ lit "/payment-links/" ++ id1
                = ApiService.baseUrl ++ lit "/payment-links/" ++ id2)
      by congruence.
    apply app_inv_head in E. now apply app_inv_head in E.
  - intros id1 id2 r1 r2 H.
    assert (E : ApiService.baseUrl ++ lit "/payment-links/"
                  ++ id1 ++ lit "/payments"
                = ApiService.baseUrl ++ lit "/payment-links/"
                    ++ id2 ++ lit "/payments")
      by congruence.
    apply app_inv_head in E. apply app_inv_head in E.
    apply app_inv_tail in E. split; [exact E | congruence].
  - intros link_id r. cbn [ApiService.url]. now rewrite <- !app_assoc.
  - intros link_id r. reflexivity.
Qed.

Lemma X18_api_addresses_witness :
  lit "link123" = lit "link123".
Proof.
  apply (proj1 X18_api_addresses (lit "link123") (lit "link123")).
  reflexivity.
Defined.

(** X19. The fee panel starts closed; after [n] calls of [toggle] it is
    open exactly when [n] is odd, and the fees and the base amount it
    was given are untouched. *)
Theorem X19_fee_panel_toggles :
  forall (fees : FeePreview) (amount : number) (n : nat),
    let s := FeeBreakdownComponent.toggles
               n (FeeBreakdownComponent.create fees amount) in
    FeeBreakdownComponent.isOpen s = Nat.odd n
    /\ FeeBreakdownComponent.feePreview_input s = fees
    /\ FeeBreakdownComponent.baseAmount s = amount.
Proof.
  intros fees amount n. simpl.
  induction n as [|n [IHo [IHf IHa]]]; [repeat split|].
  simpl. rewrite IHo, IHf, IHa.
  rewrite Nat.odd_succ, <- Nat.negb_odd. repeat split.
Qed.
